(** * Basketball Stats Tracker backend: shallow embedding of [backend/main.py]

    The backend loads a box-score CSV once into a pandas [DataFrame] and
    serves three read-only queries over it.  The embedding keeps the shape of
    the Python module:

    - a [DataFrame] is the list of its rows, in file order;
    - a Python exception is the [Raise] branch of the [result] monad;
    - the [datasets] dictionary of [ChartData] is a [gmap] keyed by strings;
    - the value of a numeric cell is a rational ([Q]); the arithmetic done on
      it is an interface ([Arith]), with two implementations: exact
      arithmetic, in which the formulas are read as written, and binary64,
      the arithmetic numpy runs. *)

From Stdlib Require Import QArith Qround Qabs Lqa ZArith Ascii String SpecFloat.
From Stdlib Require Import DecimalString DecimalPos DecimalZ DecimalFacts.
From stdpp Require Import base option list strings sorting gmap.

Open Scope Q_scope.

(** ** Python runtime: exceptions, numbers, lists *)

Inductive exn : Type :=
  | IntCastingNaNError
  | IndexError
  | ValidationError
  | HTTPException (status_code : Z) (detail : string).

Inductive result (A : Type) : Type :=
  | Ok (a : A)
  | Raise (e : exn).
Arguments Ok {A} a.
Arguments Raise {A} e.

#[global] Instance result_ret : MRet result := fun A a => Ok a.
#[global] Instance result_bind : MBind result := fun A B f m =>
  match m with
  | Ok a => f a
  | Raise e => Raise e
  end.
#[global] Instance result_fmap : FMap result := fun A B f m =>
  match m with
  | Ok a => Ok (f a)
  | Raise e => Raise e
  end.

(** [l[i]] on a Python list: [IndexError] when out of range. *)
Definition getitem {A : Type} (l : list A) (i : nat) : result A :=
  match l !! i with
  | Some x => Ok x
  | None => Raise IndexError
  end.

(** [x > 0] on numbers. *)
Definition Qgtb (x y : Q) : bool := negb (Qle_bool x y).

(** [int(x)]: truncation toward zero. *)
Definition py_int (x : Q) : Z := Z.quot (Qnum x) (Z.pos (Qden x)).

(** Nearest integer, ties to the even neighbour. *)
Definition round_half_even (x : Q) : Z :=
  let f := Qfloor x in
  match Qcompare (x - inject_Z f) (1 # 2) with
  | Lt => f
  | Gt => (f + 1)%Z
  | Eq => if Z.even f then f else (f + 1)%Z
  end.

(** [round(x, ndigits)] of an exact number. *)
Definition py_round (x : Q) (ndigits : nat) : Q :=
  let scale := inject_Z (10 ^ Z.of_nat ndigits) in
  Qred (inject_Z (round_half_even (x * scale)) / scale).

(** ** Arithmetic

    The arithmetic on the values of the cells is numpy's, not this
    repository's: the embedding takes it as an interface.  [num q] is the
    number the arithmetic has for the value [q] (a literal such as [0.44], or
    a cell converted to float).  numpy computes on [float64] cells in
    binary64 and on [int64] cells in integers; the two agree on the whole
    numbers a box score holds. *)

Class Arith (F : Type) := {
  num : Q -> F;
  fadd : F -> F -> F;
  fsub : F -> F -> F;
  fmul : F -> F -> F;
  fdiv : F -> F -> F;
  fgtb : F -> F -> bool;
  fround : F -> nat -> F;
}.

(** Exact arithmetic: the formulas as written on paper. *)
#[global] Instance exact_arith : Arith Q := {|
  num := fun q => q;
  fadd := Qplus;
  fsub := Qminus;
  fmul := Qmult;
  fdiv := Qdiv;
  fgtb := Qgtb;
  fround := py_round;
|}.

(** Binary64 (IEEE 754 double precision), round to nearest even: the
    [float64] of numpy and the [float] of Python. *)
Module B64.
Definition prec : Z := 53.
Definition emax : Z := 1024.

Definition of_Z (z : Z) : spec_float :=
  match z with
  | Z0 => S754_zero false
  | Zpos p => S754_finite false p 0
  | Zneg p => S754_finite true p 0
  end.

(** The double nearest to a rational. *)
Definition of_Q (q : Q) : spec_float :=
  SFdiv prec emax (of_Z (Qnum q)) (of_Z (Zpos (Qden q))).

(** The exact value of a finite double. *)
Definition to_Q (x : spec_float) : option Q :=
  match x with
  | S754_zero _ => Some 0
  | S754_finite s m e =>
      let v := inject_Z (Zpos m) * Qpower 2 e in
      Some (if s then - v else v)
  | _ => None
  end.

Definition sign (x : spec_float) : bool :=
  match x with
  | S754_zero s | S754_infinity s | S754_finite s _ _ => s
  | S754_nan => false
  end.

(** [round(x, ndigits)] on a float, as CPython computes it: the exact
    value of [x] is rounded to [ndigits] decimal places (ties to even), and
    the result is the double nearest to that decimal; a zero result keeps
    the sign of [x], and infinities and NaN are returned as they are. *)
Definition round (x : spec_float) (ndigits : nat) : spec_float :=
  match to_Q x with
  | Some v =>
      let scale := (10 ^ Z.of_nat ndigits)%Z in
      match round_half_even (v * inject_Z scale) with
      | Z0 => S754_zero (sign x)
      | z => SFdiv prec emax (of_Z z) (of_Z scale)
      end
  | None => x
  end.
End B64.

#[global] Instance binary64_arith : Arith spec_float := {|
  num := B64.of_Q;
  fadd := SFadd B64.prec B64.emax;
  fsub := SFsub B64.prec B64.emax;
  fmul := SFmul B64.prec B64.emax;
  fdiv := SFdiv B64.prec B64.emax;
  fgtb := fun x y => SFltb y x;
  fround := B64.round;
|}.

(** [float(x)] of the value of a cell. *)
Definition py_float {F : Type} `{Arith F} (x : Q) : F := num x.

(** ** The [gameId] column

    pandas gives the column one dtype for the whole file: [int64] when every
    cell is an integer (the NBA ids of the shipped data), [object] holding
    strings otherwise.  The queries use three things of it: equality of
    values (grouping), the order [groupby] sorts its keys by, and [str]. *)

Class GameKey (K : Type) := {
  key_eq_dec :: EqDecision K;
  key_le : relation K;
  key_le_dec :: RelDecision key_le;
  key_str : K -> string;
}.

(** [str] tells the values of a column apart: two cells print alike only
    when they are the same value. *)
Class GameKeyLawful (K : Type) `{GameKey K} := {
  key_str_inj : forall a b : K, key_str a = key_str b -> a = b;
}.

(** [str(n)] of a Python integer: decimal digits, [-] for negatives. *)
Definition str_of_int (z : Z) : string := NilZero.string_of_int (Z.to_int z).

#[global] Instance int64_key : GameKey Z := {|
  key_le := Z.le;
  key_str := str_of_int;
|}.

(** Strings sort by code point. *)
Definition string_le (a b : string) : Prop := String.leb a b = true.
#[global] Instance string_le_dec : RelDecision string_le.
Proof. intros a b. unfold string_le. apply _. Defined.

#[global] Instance object_key : GameKey string := {|
  key_le := string_le;
  key_str := fun s => s;
|}.

(** ** Data model *)

(** A CSV cell of a column that is meant to hold numbers.  The grammar of
    pandas' number parser is not part of this repository, so a cell carries
    the parser's verdict: [Number q] is text that parses to [q], [Other s] is
    text that does not (the empty text is a missing cell). *)
Inductive Cell : Type :=
  | Number (q : Q)
  | Other (text : string).

(** A cell of a descriptive text column, as [pd.read_csv] hands it over:
    text, NaN for an empty cell, or a number when the whole column reads as
    numbers. *)
Inductive Text : Type :=
  | Str (s : string)
  | NaN
  | Num (q : Q).

(** One line of the CSV file, as [pd.read_csv] hands it over.  The columns
    that say which game and which team a line belongs to are present on
    every line (the invariant of the data model); the player's name,
    position and minutes are cells like any other. *)
Module Raw.
Record t (K : Type) : Type := mk {
  gameId : K;
  game_date : string;
  teamId : Cell;
  teamName : string;
  teamTricode : string;
  personId : Cell;
  personName : Text;
  position : Text;
  minutes : Text;
  fieldGoalsMade : Cell;
  fieldGoalsAttempted : Cell;
  threePointersMade : Cell;
  threePointersAttempted : Cell;
  freeThrowsMade : Cell;
  freeThrowsAttempted : Cell;
  reboundsOffensive : Cell;
  reboundsDefensive : Cell;
  reboundsTotal : Cell;
  assists : Cell;
  steals : Cell;
  blocks : Cell;
  turnovers : Cell;
  foulsPersonal : Cell;
  points : Cell;
  plusMinusPoints : Cell;
}.
Arguments mk {K}.
Arguments gameId {K}. Arguments game_date {K}. Arguments teamId {K}.
Arguments teamName {K}. Arguments teamTricode {K}. Arguments personId {K}.
Arguments personName {K}. Arguments position {K}. Arguments minutes {K}.
Arguments fieldGoalsMade {K}. Arguments fieldGoalsAttempted {K}.
Arguments threePointersMade {K}. Arguments threePointersAttempted {K}.
Arguments freeThrowsMade {K}. Arguments freeThrowsAttempted {K}.
Arguments reboundsOffensive {K}. Arguments reboundsDefensive {K}.
Arguments reboundsTotal {K}. Arguments assists {K}. Arguments steals {K}.
Arguments blocks {K}. Arguments turnovers {K}. Arguments foulsPersonal {K}.
Arguments points {K}. Arguments plusMinusPoints {K}.
End Raw.

(** One row of [DATAFRAME], after [_load_data]. *)
Module Row.
Record t (K : Type) : Type := mk {
  gameId : K;
  game_date : string;
  teamId : Z;
  teamName : string;
  teamTricode : string;
  personId : Z;
  personName : Text;
  position : Text;
  minutes : Text;
  fieldGoalsMade : Q;
  fieldGoalsAttempted : Q;
  threePointersMade : Q;
  threePointersAttempted : Q;
  freeThrowsMade : Q;
  freeThrowsAttempted : Q;
  reboundsOffensive : Q;
  reboundsDefensive : Q;
  reboundsTotal : Q;
  assists : Q;
  steals : Q;
  blocks : Q;
  turnovers : Q;
  foulsPersonal : Q;
  points : Q;
  plusMinusPoints : Q;
}.
Arguments mk {K}.
Arguments gameId {K}. Arguments game_date {K}. Arguments teamId {K}.
Arguments teamName {K}. Arguments teamTricode {K}. Arguments personId {K}.
Arguments personName {K}. Arguments position {K}. Arguments minutes {K}.
Arguments fieldGoalsMade {K}. Arguments fieldGoalsAttempted {K}.
Arguments threePointersMade {K}. Arguments threePointersAttempted {K}.
Arguments freeThrowsMade {K}. Arguments freeThrowsAttempted {K}.
Arguments reboundsOffensive {K}. Arguments reboundsDefensive {K}.
Arguments reboundsTotal {K}. Arguments assists {K}. Arguments steals {K}.
Arguments blocks {K}. Arguments turnovers {K}. Arguments foulsPersonal {K}.
Arguments points {K}. Arguments plusMinusPoints {K}.
End Row.

(** [class PlayerStats(BaseModel)] *)
Module PlayerStats.
Record t (F : Type) : Type := mk {
  gameId : string;
  teamId : Z;
  teamName : string;
  teamTricode : string;
  personId : Z;
  personName : string;
  position : string;
  minutes : string;
  points : Z;
  rebounds : Z;
  assists : Z;
  steals : Z;
  blocks : Z;
  turnovers : Z;
  true_shooting : F;
  efficiency : F;
  plusMinus : Z;
}.
Arguments mk {F}.
Arguments gameId {F}. Arguments teamId {F}. Arguments teamName {F}.
Arguments teamTricode {F}. Arguments personId {F}. Arguments personName {F}.
Arguments position {F}. Arguments minutes {F}. Arguments points {F}.
Arguments rebounds {F}. Arguments assists {F}. Arguments steals {F}.
Arguments blocks {F}. Arguments turnovers {F}. Arguments true_shooting {F}.
Arguments efficiency {F}. Arguments plusMinus {F}.
End PlayerStats.

(** [class GameInfo(BaseModel)] *)
Module GameInfo.
Record t : Type := mk {
  gameId : string;
  game_date : string;
  teams : list string;
}.
End GameInfo.

(** [class ChartData(BaseModel)] *)
Module ChartData.
Record t (F : Type) : Type := mk {
  labels : list string;
  datasets : gmap string (list F);
}.
Arguments mk {F}.
Arguments labels {F}. Arguments datasets {F}.
End ChartData.

(** What pydantic does with the value given for a [str] field: text is
    kept, anything else fails the validation of the model. *)
Definition validate_str (t : Text) : result string :=
  match t with
  | Str s => Ok s
  | _ => Raise ValidationError
  end.

(** ** [_load_data] *)

(** [pd.to_numeric(col, errors="coerce")], cell by cell: [None] is NaN. *)
Definition to_numeric (c : Cell) : option Q :=
  match c with
  | Number q => Some q
  | Other _ => None
  end.

(** [.fillna(value)] *)
Definition fillna (x : option Q) (value : Q) : Q :=
  match x with
  | Some q => q
  | None => value
  end.

Definition int64_min : Z := - 2 ^ 63.
Definition int64_max : Z := 2 ^ 63 - 1.

(** The cast of a float to [int64]: truncation, and [int64_min] for a
    value out of range (what the conversion instruction of the processor
    answers). *)
Definition to_int64 (q : Q) : Z :=
  let z := py_int q in
  if bool_decide (int64_min <= z <= int64_max)%Z then z else int64_min.

(** [.astype(int)]: casts to [int64], and refuses NaN. *)
Definition astype_int (x : option Q) : result Z :=
  match x with
  | Some q => Ok (to_int64 q)
  | None => Raise IntCastingNaNError
  end.

(** [mapM] over the rows of a table, first error wins. *)
Fixpoint for_rows {A B : Type} (f : A -> result B) (l : list A) : result (list B) :=
  match l with
  | [] => Ok []
  | x :: xs => y ← f x; ys ← for_rows f xs; mret (y :: ys)
  end.

Section Loader.
Context {K : Type}.

(** The three column assignments of [_load_data] seen from one line of the
    file.  The two [astype(int)] calls raise the same exception, so which
    column and which line trips first does not show in the result. *)
Definition load_row (r : Raw.t K) : result (Row.t K) :=
  let col c := fillna (to_numeric c) 0 in
  teamId ← astype_int (to_numeric (Raw.teamId r));
  personId ← astype_int (to_numeric (Raw.personId r));
  mret {|
    Row.gameId := Raw.gameId r;
    Row.game_date := Raw.game_date r;
    Row.teamId := teamId;
    Row.teamName := Raw.teamName r;
    Row.teamTricode := Raw.teamTricode r;
    Row.personId := personId;
    Row.personName := Raw.personName r;
    Row.position := Raw.position r;
    Row.minutes := Raw.minutes r;
    Row.fieldGoalsMade := col (Raw.fieldGoalsMade r);
    Row.fieldGoalsAttempted := col (Raw.fieldGoalsAttempted r);
    Row.threePointersMade := col (Raw.threePointersMade r);
    Row.threePointersAttempted := col (Raw.threePointersAttempted r);
    Row.freeThrowsMade := col (Raw.freeThrowsMade r);
    Row.freeThrowsAttempted := col (Raw.freeThrowsAttempted r);
    Row.reboundsOffensive := col (Raw.reboundsOffensive r);
    Row.reboundsDefensive := col (Raw.reboundsDefensive r);
    Row.reboundsTotal := col (Raw.reboundsTotal r);
    Row.assists := col (Raw.assists r);
    Row.steals := col (Raw.steals r);
    Row.blocks := col (Raw.blocks r);
    Row.turnovers := col (Raw.turnovers r);
    Row.foulsPersonal := col (Raw.foulsPersonal r);
    Row.points := col (Raw.points r);
    Row.plusMinusPoints := col (Raw.plusMinusPoints r);
  |}.

Definition _load_data (csv : list (Raw.t K)) : result (list (Row.t K)) :=
  for_rows load_row csv.

(** The [numeric_cols] list of [_load_data]: each column by name, with its
    reading before and after the load. *)
Definition numeric_cols : list (string * (Raw.t K -> Cell) * (Row.t K -> Q)) :=
  [ ("fieldGoalsMade"%string, Raw.fieldGoalsMade, Row.fieldGoalsMade);
    ("fieldGoalsAttempted"%string, Raw.fieldGoalsAttempted, Row.fieldGoalsAttempted);
    ("threePointersMade"%string, Raw.threePointersMade, Row.threePointersMade);
    ("threePointersAttempted"%string, Raw.threePointersAttempted, Row.threePointersAttempted);
    ("freeThrowsMade"%string, Raw.freeThrowsMade, Row.freeThrowsMade);
    ("freeThrowsAttempted"%string, Raw.freeThrowsAttempted, Row.freeThrowsAttempted);
    ("reboundsOffensive"%string, Raw.reboundsOffensive, Row.reboundsOffensive);
    ("reboundsDefensive"%string, Raw.reboundsDefensive, Row.reboundsDefensive);
    ("reboundsTotal"%string, Raw.reboundsTotal, Row.reboundsTotal);
    ("assists"%string, Raw.assists, Row.assists);
    ("steals"%string, Raw.steals, Row.steals);
    ("blocks"%string, Raw.blocks, Row.blocks);
    ("turnovers"%string, Raw.turnovers, Row.turnovers);
    ("foulsPersonal"%string, Raw.foulsPersonal, Row.foulsPersonal);
    ("points"%string, Raw.points, Row.points);
    ("plusMinusPoints"%string, Raw.plusMinusPoints, Row.plusMinusPoints) ].

(** Both identifier cells of a line hold a number. *)
Definition ids_numeric (raw : Raw.t K) : Prop :=
  is_Some (to_numeric (Raw.teamId raw))
  /\ is_Some (to_numeric (Raw.personId raw)).
End Loader.

(** ** Metric calculator *)

Section Metrics.
Context {K : Type} {F : Type} `{Arith F}.

Definition _calculate_true_shooting (row : Row.t K) : F :=
  let fga := num (Row.fieldGoalsAttempted row) in
  let fta := num (Row.freeThrowsAttempted row) in
  let denom := fmul (num 2) (fadd fga (fmul (num 0.44) fta)) in
  if fgtb denom (num 0) then fdiv (num (Row.points row)) denom else num 0.

Definition _calculate_efficiency (row : Row.t K) : F :=
  let made := num (Row.fieldGoalsMade row) in
  let attempted := num (Row.fieldGoalsAttempted row) in
  let ftm := num (Row.freeThrowsMade row) in
  let fta := num (Row.freeThrowsAttempted row) in
  let rebounds := num (Row.reboundsTotal row) in
  let assists := num (Row.assists row) in
  let steals := num (Row.steals row) in
  let blocks := num (Row.blocks row) in
  let turnovers := num (Row.turnovers row) in
  let points := num (Row.points row) in
  fsub (fadd (fadd (fadd (fadd points rebounds) assists) steals) blocks)
       (fadd (fadd (fsub attempted made) (fsub fta ftm)) turnovers).
End Metrics.

Section MetricFormulas.
Context {K : Type}.

(** The denominator of the True Shooting formula, as the spec writes it. *)
Definition ts_denominator (row : Row.t K) : Q :=
  2 * (Row.fieldGoalsAttempted row + 0.44 * Row.freeThrowsAttempted row).

(** The efficiency formula, as the spec writes it. *)
Definition efficiency_formula (row : Row.t K) : Q :=
  (Row.points row + Row.reboundsTotal row + Row.assists row
   + Row.steals row + Row.blocks row)
  - ((Row.fieldGoalsAttempted row - Row.fieldGoalsMade row)
     + (Row.freeThrowsAttempted row - Row.freeThrowsMade row)
     + Row.turnovers row).
End MetricFormulas.

(** ** Query layer *)

(** [.drop_duplicates()], keeping the first occurrence of each value;
    [seen] holds the values met so far. *)
Fixpoint drop_duplicates_from {A : Type} `{EqDecision A}
    (seen : list A) (l : list A) : list A :=
  match l with
  | [] => []
  | x :: xs =>
      if decide (x ∈ seen) then drop_duplicates_from seen xs
      else x :: drop_duplicates_from (x :: seen) xs
  end.

Definition drop_duplicates {A : Type} `{EqDecision A} (l : list A) : list A :=
  drop_duplicates_from [] l.

Definition game_not_found : exn := HTTPException 404 "Game not found".

Section Queries.
Context {K : Type} `{GameKey K} {F : Type} `{Arith F}.

Abbreviation DataFrame := (list (Row.t K)).

(** [for game_id, group in df.groupby("gameId")]: one pair per distinct
    key, keys in sorted order, each group keeping the file order. *)
Definition groupby_gameId (df : DataFrame) : list (K * DataFrame) :=
  let keys := merge_sort key_le (drop_duplicates (Row.gameId <$> df)) in
  (fun k => (k, filter (fun r => Row.gameId r = k) df)) <$> keys.

(** The body of the loop of [list_games]. *)
Definition game_info (game_id : K) (group : DataFrame) : result GameInfo.t :=
  date ← getitem (Row.game_date <$> group) 0;
  let teams := drop_duplicates (Row.teamName <$> group) in
  display ←
    (if (1 <? length teams)%nat
     then t0 ← getitem teams 0; t1 ← getitem teams 1;
          mret (t0 +:+ " vs. " +:+ t1)
     else getitem teams 0);
  mret {|
    GameInfo.gameId := key_str game_id;
    GameInfo.game_date := date;
    GameInfo.teams := [display];
  |}.

Definition list_games (DATAFRAME : DataFrame) : result (list GameInfo.t) :=
  for_rows (fun '(game_id, group) => game_info game_id group)
           (groupby_gameId DATAFRAME).

(** [DATAFRAME[DATAFRAME["gameId"].astype(str) == str(game_id)]] *)
Definition rows_of_game (DATAFRAME : DataFrame) (game_id : string) : DataFrame :=
  filter (fun r => key_str (Row.gameId r) = game_id) DATAFRAME.

(** The [PlayerStats(...)] built for one row; the model is validated when
    it is built. *)
Definition player_stats (row : Row.t K) : result (PlayerStats.t F) :=
  let ts := _calculate_true_shooting row in
  let eff := _calculate_efficiency row in
  personName ← validate_str (Row.personName row);
  position ← validate_str (Row.position row);
  minutes ← validate_str (Row.minutes row);
  mret {|
    PlayerStats.gameId := key_str (Row.gameId row);
    PlayerStats.teamId := Row.teamId row;
    PlayerStats.teamName := Row.teamName row;
    PlayerStats.teamTricode := Row.teamTricode row;
    PlayerStats.personId := Row.personId row;
    PlayerStats.personName := personName;
    PlayerStats.position := position;
    PlayerStats.minutes := minutes;
    PlayerStats.points := py_int (Row.points row);
    PlayerStats.rebounds := py_int (Row.reboundsTotal row);
    PlayerStats.assists := py_int (Row.assists row);
    PlayerStats.steals := py_int (Row.steals row);
    PlayerStats.blocks := py_int (Row.blocks row);
    PlayerStats.turnovers := py_int (Row.turnovers row);
    PlayerStats.true_shooting := fround ts 3;
    PlayerStats.efficiency := fround eff 2;
    PlayerStats.plusMinus := py_int (Row.plusMinusPoints row);
  |}.

Definition game_players (DATAFRAME : DataFrame) (game_id : string)
    : result (list (PlayerStats.t F)) :=
  let df_game := rows_of_game DATAFRAME game_id in
  if bool_decide (df_game = []) then Raise game_not_found
  else
    (* players = []; for _, row in df_game.iterrows(): players.append(...) *)
    for_rows player_stats df_game.

(** The four lists [game_charts] fills in its loop. *)
Record chart_acc : Type := mk_acc {
  acc_labels : list Text;
  acc_points : list F;
  acc_ts_list : list F;
  acc_momentum : list F;
}.

Definition chart_step (acc : chart_acc) (row : Row.t K) : chart_acc :=
  {|
    acc_labels := acc_labels acc ++ [Row.personName row];
    acc_points := acc_points acc ++ [py_float (Row.points row)];
    acc_ts_list := acc_ts_list acc ++ [fround (_calculate_true_shooting row) 3];
    acc_momentum := acc_momentum acc ++ [py_float (Row.plusMinusPoints row)];
  |}.

Definition game_charts (DATAFRAME : DataFrame) (game_id : string)
    : result (ChartData.t F) :=
  let df_game := rows_of_game DATAFRAME game_id in
  if bool_decide (df_game = []) then Raise game_not_found
  else
    let acc := foldl chart_step (mk_acc [] [] [] []) df_game in
    (* ChartData(labels=labels, datasets=...) validates the labels *)
    labels ← for_rows validate_str (acc_labels acc);
    mret {|
      ChartData.labels := labels;
      ChartData.datasets :=
        <["points"%string := acc_points acc]>
          (<["true_shooting"%string := acc_ts_list acc]>
             (<["momentum"%string := acc_momentum acc]> ∅));
    |}.

(** *** Closed forms of the loops, used to state what they compute *)

(** The keys [groupby] iterates over, in its order. *)
Definition game_keys (df : DataFrame) : list K :=
  merge_sort key_le (drop_duplicates (Row.gameId <$> df)).

(** The display string [list_games] makes of the distinct team names. *)
Definition display_of (teams : list string) : string :=
  match teams with
  | [] => ""
  | [t0] => t0
  | t0 :: t1 :: _ => t0 +:+ " vs. " +:+ t1
  end.

(** What the loop body of [list_games] appends for one group. *)
Definition game_info_of (game_id : K) (group : DataFrame) : GameInfo.t :=
  {|
    GameInfo.gameId := key_str game_id;
    GameInfo.game_date := default ""%string (head (Row.game_date <$> group));
    GameInfo.teams := [display_of (drop_duplicates (Row.teamName <$> group))];
  |}.

(** The text of a text cell. *)
Definition text_of (t : Text) : string :=
  match t with
  | Str s => s
  | _ => ""
  end.

(** A row whose name, position and minutes cells hold text: the rows
    [PlayerStats] accepts. *)
Definition text_row (row : Row.t K) : Prop :=
  (exists s, Row.personName row = Str s)
  /\ (exists s, Row.position row = Str s)
  /\ (exists s, Row.minutes row = Str s).

(** A row whose name cell holds text: the rows [ChartData] accepts as
    labels. *)
Definition named_row (row : Row.t K) : Prop :=
  exists s, Row.personName row = Str s.

(** What [game_players] appends for a row that passes the validation. *)
Definition player_entry (row : Row.t K) : PlayerStats.t F :=
  {|
    PlayerStats.gameId := key_str (Row.gameId row);
    PlayerStats.teamId := Row.teamId row;
    PlayerStats.teamName := Row.teamName row;
    PlayerStats.teamTricode := Row.teamTricode row;
    PlayerStats.personId := Row.personId row;
    PlayerStats.personName := text_of (Row.personName row);
    PlayerStats.position := text_of (Row.position row);
    PlayerStats.minutes := text_of (Row.minutes row);
    PlayerStats.points := py_int (Row.points row);
    PlayerStats.rebounds := py_int (Row.reboundsTotal row);
    PlayerStats.assists := py_int (Row.assists row);
    PlayerStats.steals := py_int (Row.steals row);
    PlayerStats.blocks := py_int (Row.blocks row);
    PlayerStats.turnovers := py_int (Row.turnovers row);
    PlayerStats.true_shooting := fround (_calculate_true_shooting row) 3;
    PlayerStats.efficiency := fround (_calculate_efficiency row) 2;
    PlayerStats.plusMinus := py_int (Row.plusMinusPoints row);
  |}.

(** What [game_charts] returns for the rows of a game when their names
    pass the validation. *)
Definition chart_of (rows : DataFrame) : ChartData.t F :=
  {|
    ChartData.labels := (fun r => text_of (Row.personName r)) <$> rows;
    ChartData.datasets :=
      <["points"%string := (fun r => py_float (Row.points r)) <$> rows]>
        (<["true_shooting"%string :=
             (fun r => fround (_calculate_true_shooting r) 3) <$> rows]>
           (<["momentum"%string :=
                (fun r => py_float (Row.plusMinusPoints r)) <$> rows]> ∅));
  |}.
End Queries.

(** ** Sample data

    A few box-score lines in the format of the shipped file, with [int64]
    game ids.  [box] fills the columns the queries do not read. *)

Definition box (game : Z) (team player : string)
    (fgm fga ftm fta reb ast stl blk tov pts pm : Q) : Row.t Z :=
  {|
    Row.gameId := game; Row.game_date := "2024-04-21";
    Row.teamId := 0; Row.teamName := team; Row.teamTricode := "";
    Row.personId := 0; Row.personName := Str player;
    Row.position := Str ""; Row.minutes := Str "";
    Row.fieldGoalsMade := fgm; Row.fieldGoalsAttempted := fga;
    Row.threePointersMade := 0; Row.threePointersAttempted := 0;
    Row.freeThrowsMade := ftm; Row.freeThrowsAttempted := fta;
    Row.reboundsOffensive := 0; Row.reboundsDefensive := 0;
    Row.reboundsTotal := reb; Row.assists := ast; Row.steals := stl;
    Row.blocks := blk; Row.turnovers := tov; Row.foulsPersonal := 0;
    Row.points := pts; Row.plusMinusPoints := pm;
  |}.

(** The two example rows of the spec. *)
Definition row_thirty_points : Row.t Z :=
  box 42300101 "Celtics" "A" 10 20 4 5 0 0 0 0 0 30 0.
Definition row_rating_24 : Row.t Z :=
  box 42300101 "Celtics" "B" 8 18 4 5 10 5 2 1 3 20 0.

(** No points on three shots. *)
Definition row_scoreless : Row.t Z :=
  box 42300101 "Heat" "C" 0 3 0 0 1 0 0 0 0 0 (-4).

(** No attempts at all. *)
Definition row_no_attempts : Row.t Z :=
  box 42300101 "Heat" "D" 0 0 0 0 2 1 0 0 0 0 3.

(** Lines a file can hold although no game produces them: a negative
    attempt count, a negative score. *)
Definition row_negative_attempts : Row.t Z :=
  box 42300101 "Heat" "E" 0 (-1) 0 0 0 0 0 0 0 2 0.
Definition row_negative_points : Row.t Z :=
  box 42300101 "Heat" "F" 0 10 0 0 0 0 0 0 0 (-5) 0.

Definition sample_df : list (Row.t Z) :=
  [ row_thirty_points; row_scoreless;
    box 42300102 "Knicks" "G" 4 9 2 2 3 1 0 0 1 11 1;
    row_rating_24; row_no_attempts ].

Definition raw_line (team_id person_id points : Cell) : Raw.t Z :=
  {|
    Raw.gameId := 42300101%Z; Raw.game_date := "2024-04-21";
    Raw.teamId := team_id; Raw.teamName := "Celtics"; Raw.teamTricode := "BOS";
    Raw.personId := person_id; Raw.personName := Str "A";
    Raw.position := Str "F"; Raw.minutes := Str "38:12";
    Raw.fieldGoalsMade := Number 10; Raw.fieldGoalsAttempted := Number 20;
    Raw.threePointersMade := Other ""; Raw.threePointersAttempted := Other "";
    Raw.freeThrowsMade := Number 4; Raw.freeThrowsAttempted := Number 5;
    Raw.reboundsOffensive := Number 1; Raw.reboundsDefensive := Number 6;
    Raw.reboundsTotal := Number 7; Raw.assists := Number 3;
    Raw.steals := Other "n/a"; Raw.blocks := Number 0;
    Raw.turnovers := Number 2; Raw.foulsPersonal := Number 1;
    Raw.points := points; Raw.plusMinusPoints := Number (-3);
  |}.

(** A file whose stat cells are partly malformed, and one whose team
    identifier is missing on its second line. *)
Definition csv_malformed_stats : list (Raw.t Z) :=
  [ raw_line (Number 1610612738) (Number 1628369) (Other "DNP");
    raw_line (Number 1610612738) (Number 1627759) (Number 22) ].
Definition csv_missing_team_id : list (Raw.t Z) :=
  [ raw_line (Number 1610612738) (Number 1628369) (Number 30);
    raw_line (Other "") (Number 1627759) (Number 22) ].

(** A game with two quotients that fall, in exact arithmetic, half way
    between two 3-decimal values: 33 / 35.2 and 21 / 80. *)
Definition sample_ties : list (Row.t Z) :=
  [ box 42300104 "Celtics" "A" 9 11 15 15 0 0 0 0 0 33 0;
    box 42300104 "Heat" "B" 10 40 0 0 0 0 0 0 0 21 0 ].


(** A line without a player name. *)
Definition row_unnamed : Row.t Z :=
  {|
    Row.gameId := 42300106%Z; Row.game_date := "2024-04-21";
    Row.teamId := 1610612738%Z; Row.teamName := "Celtics";
    Row.teamTricode := "BOS";
    Row.personId := 1628369%Z; Row.personName := NaN;
    Row.position := Str "F"; Row.minutes := Str "12:30";
    Row.fieldGoalsMade := 1; Row.fieldGoalsAttempted := 2;
    Row.threePointersMade := 0; Row.threePointersAttempted := 0;
    Row.freeThrowsMade := 0; Row.freeThrowsAttempted := 0;
    Row.reboundsOffensive := 0; Row.reboundsDefensive := 1;
    Row.reboundsTotal := 1; Row.assists := 0; Row.steals := 0;
    Row.blocks := 0; Row.turnovers := 0; Row.foulsPersonal := 0;
    Row.points := 2; Row.plusMinusPoints := 1;
  |}.

(** ** Vocabulary of the further properties *)

(** [q] is a whole number, as every counting stat of a box score is. *)
Definition whole (q : Q) : Prop := exists n : Z, q == inject_Z n.

(** The stats [_calculate_efficiency] reads. *)
Definition efficiency_inputs {K : Type} (row : Row.t K) : list Q :=
  [ Row.points row; Row.reboundsTotal row; Row.assists row; Row.steals row;
    Row.blocks row; Row.fieldGoalsAttempted row; Row.fieldGoalsMade row;
    Row.freeThrowsAttempted row; Row.freeThrowsMade row; Row.turnovers row ].


(** A game whose lines name three teams. *)
Definition sample_three_teams : list (Row.t Z) :=
  [ box 42300103 "Celtics" "A" 1 2 0 0 0 0 0 0 0 2 0;
    box 42300103 "Celtics" "B" 0 1 0 0 0 0 0 0 0 0 0;
    box 42300103 "Heat" "C" 2 2 0 0 0 0 0 0 0 4 0;
    box 42300103 "Knicks" "D" 0 0 0 0 0 0 0 0 0 0 0 ].

(** * Properties *)

(** ** Numbers *)

Lemma Qgtb_true (x y : Q) : Qgtb x y = true <-> y < x.
Proof.
  unfold Qgtb. rewrite negb_true_iff. split.
  - intros E. apply Qnot_le_lt. intros L.
    apply Qle_bool_iff in L. congruence.
  - intros L. destruct (Qle_bool x y) eqn:E; [|done].
    apply Qle_bool_iff in E. by apply Qlt_not_le in L.
Qed.

Lemma Qgtb_false (x y : Q) : Qgtb x y = false <-> x <= y.
Proof.
  unfold Qgtb. rewrite negb_false_iff. apply Qle_bool_iff.
Qed.

Lemma round_half_even_near (x : Q) :
  Qabs (x - inject_Z (round_half_even x)) <= 1 # 2.
Proof.
  unfold round_half_even.
  pose proof (Qfloor_le x) as Hlo. pose proof (Qlt_floor x) as Hhi.
  rewrite inject_Z_plus in Hhi. change (inject_Z 1) with 1 in Hhi.
  apply Qabs_Qle_condition.
  destruct (Qcompare (x - inject_Z (Qfloor x)) (1 # 2)) eqn:C.
  - apply Qeq_alt in C.
    destruct (Z.even (Qfloor x)); rewrite ?inject_Z_plus;
      change (inject_Z 1) with 1; split; lra.
  - apply Qlt_alt in C. split; lra.
  - apply Qgt_alt in C. rewrite inject_Z_plus. change (inject_Z 1) with 1.
    split; lra.
Qed.

Lemma str_of_int_inj (a b : Z) : str_of_int a = str_of_int b -> a = b.
Proof.
  unfold str_of_int. intros E.
  assert (P : forall z, NilZero.int_of_string (NilZero.string_of_int (Z.to_int z))
                        = Some (Z.to_int z)).
  { intros z. apply NilZero.isi; destruct z; simpl; try discriminate;
      intros F; injection F as F; by apply Unsigned.to_uint_nonnil in F. }
  pose proof (P a) as Pa. rewrite E, P in Pa.
  injection Pa as Pa. symmetry. by apply to_int_inj.
Qed.

#[global] Instance int64_key_lawful : GameKeyLawful Z.
Proof. split. exact str_of_int_inj. Qed.

#[global] Instance object_key_lawful : GameKeyLawful string.
Proof. split. by intros a b E. Qed.

(** ** Lists and the [result] monad *)

Section ListFacts.
Context {A : Type} `{EqDecision A}.
Implicit Types l seen : list A.

Lemma elem_of_drop_duplicates_from seen l x :
  x ∈ drop_duplicates_from seen l <-> x ∈ l /\ x ∉ seen.
Proof.
  revert seen. induction l as [|y l IH]; intros seen; simpl.
  - rewrite elem_of_nil. tauto.
  - destruct (decide (y ∈ seen)) as [Hy|Hy].
    + rewrite IH, elem_of_cons. split; [tauto|].
      intros [[->|Hx] Hs]; [done|tauto].
    + rewrite !elem_of_cons, IH, elem_of_cons.
      destruct (decide (x = y)) as [->|Hxy]; tauto.
Qed.

Lemma NoDup_drop_duplicates_from seen l :
  NoDup (drop_duplicates_from seen l).
Proof.
  revert seen. induction l as [|y l IH]; intros seen; simpl.
  - constructor.
  - destruct (decide (y ∈ seen)); [apply IH|].
    constructor; [|apply IH].
    rewrite elem_of_drop_duplicates_from, elem_of_cons. tauto.
Qed.

Lemma elem_of_drop_duplicates l x : x ∈ drop_duplicates l <-> x ∈ l.
Proof.
  unfold drop_duplicates.
  rewrite elem_of_drop_duplicates_from, elem_of_nil. tauto.
Qed.

Lemma NoDup_drop_duplicates l : NoDup (drop_duplicates l).
Proof. apply NoDup_drop_duplicates_from. Qed.

(** The distinct values are as many, however they are collected. *)
Lemma length_drop_duplicates l :
  length (drop_duplicates l) = length (remove_dups l).
Proof.
  apply Permutation_length, NoDup_Permutation.
  - apply NoDup_drop_duplicates.
  - apply NoDup_remove_dups.
  - intros x. by rewrite elem_of_drop_duplicates, elem_of_remove_dups.
Qed.

Lemma drop_duplicates_from_seen seen l :
  (forall x, x ∈ l -> x ∈ seen) -> drop_duplicates_from seen l = [].
Proof.
  induction l as [|y l IH]; intros Hl; simpl; [done|].
  rewrite decide_True by (apply Hl, elem_of_cons; by left).
  apply IH. intros x Hx. apply Hl, elem_of_cons. by right.
Qed.

Lemma drop_duplicates_cons x l :
  drop_duplicates (x :: l) = x :: drop_duplicates_from [x] l.
Proof.
  unfold drop_duplicates. simpl.
  destruct (decide (x ∈ [])) as [Hx|_]; [by apply elem_of_nil in Hx|done].
Qed.

(** One distinct value. *)
Lemma drop_duplicates_one a l :
  l <> [] -> (forall x, x ∈ l -> x = a) -> drop_duplicates l = [a].
Proof.
  destruct l as [|y l]; [done|]. intros _ Hl.
  rewrite drop_duplicates_cons.
  rewrite (Hl y) by (apply elem_of_cons; by left).
  rewrite drop_duplicates_from_seen; [done|].
  intros x Hx. rewrite (Hl x) by (apply elem_of_cons; by right).
  apply elem_of_cons. by left.
Qed.

(** Two distinct values, [a] met first. *)
Lemma drop_duplicates_two a b l :
  a <> b -> head l = Some a -> b ∈ l ->
  (forall x, x ∈ l -> x = a \/ x = b) ->
  drop_duplicates l = [a; b].
Proof.
  intros Hab Hhd Hb Hl. destruct l as [|y l]; [done|].
  injection Hhd as ->. rewrite drop_duplicates_cons. f_equal.
  assert (Hb' : b ∈ l).
  { apply elem_of_cons in Hb as [Hb|Hb]; [by symmetry in Hb|done]. }
  assert (Hl' : forall x, x ∈ l -> x = a \/ x = b).
  { intros x Hx. apply Hl, elem_of_cons. by right. }
  clear Hb Hl. induction l as [|y l IH]; [by apply elem_of_nil in Hb'|].
  simpl. destruct (Hl' y) as [Hya|Hyb]; [apply elem_of_cons; by left| |].
  - rewrite decide_True by (rewrite Hya; apply elem_of_cons; by left).
    apply IH.
    + apply elem_of_cons in Hb' as [Hb'|Hb']; [congruence|done].
    + intros x Hx. apply Hl', elem_of_cons. by right.
  - rewrite decide_False.
    + rewrite Hyb. f_equal. apply drop_duplicates_from_seen.
      intros x Hx. rewrite !elem_of_cons.
      destruct (Hl' x) as [Hxa|Hxb]; [apply elem_of_cons; by right| |];
        tauto.
    + rewrite Hyb, elem_of_cons, elem_of_nil. intros [Hba|[]]. congruence.
Qed.
End ListFacts.

Lemma foldl_snoc_map {A B : Type} (f : A -> B) (init : list B) (l : list A) :
  foldl (fun acc x => acc ++ [f x]) init l = init ++ (f <$> l).
Proof.
  revert init. induction l as [|x l IH]; intros init; simpl.
  - by rewrite app_nil_r.
  - rewrite IH. by rewrite <- app_assoc.
Qed.

Lemma for_rows_ok {A B : Type} (f : A -> result B) (g : A -> B) (l : list A) :
  (forall x, x ∈ l -> f x = Ok (g x)) -> for_rows f l = Ok (g <$> l).
Proof.
  induction l as [|x l IH]; intros Hl; simpl; [done|].
  rewrite (Hl x) by (apply elem_of_cons; by left). simpl.
  rewrite IH; [done|]. intros y Hy. apply Hl, elem_of_cons. by right.
Qed.

Lemma for_rows_cons {A B : Type} (f : A -> result B) (x : A) (l : list A) :
  for_rows f (x :: l) = (y ← f x; ys ← for_rows f l; mret (y :: ys)).
Proof. reflexivity. Qed.

Lemma for_rows_Forall2 {A B : Type} (f : A -> result B) (l : list A) (l' : list B) :
  for_rows f l = Ok l' -> Forall2 (fun x y => f x = Ok y) l l'.
Proof.
  revert l'. induction l as [|x l IH]; intros l'; simpl.
  - intros [= <-]. constructor.
  - destruct (f x) as [y|e] eqn:E; simpl; [|done].
    destruct (for_rows f l) as [ys|e]; simpl; [|done].
    intros [= <-]. constructor; [done|]. by apply IH.
Qed.

Lemma for_rows_raise {A B : Type} (f : A -> result B) (l : list A) (e : exn) :
  for_rows f l = Raise e -> exists x, x ∈ l /\ f x = Raise e.
Proof.
  induction l as [|x l IH]; simpl; [done|].
  destruct (f x) as [y|e'] eqn:E; simpl.
  - destruct (for_rows f l) as [ys|e'']; simpl; [done|].
    intros [= <-]. destruct IH as (x' & Hx' & Hf); [done|].
    exists x'. split; [by apply list_elem_of_further|done].
  - intros [= <-]. exists x. split; [apply list_elem_of_here|done].
Qed.

(** ** Dataset loader *)

Section LoaderFacts.
Context {K : Type}.
Implicit Types (csv : list (Raw.t K)) (raw : Raw.t K) (row : Row.t K).

Lemma load_row_cols raw row :
  load_row raw = Ok row ->
  Forall (fun '(_, cell, value) => value row = fillna (to_numeric (cell raw)) 0)
         numeric_cols.
Proof.
  unfold load_row.
  destruct (astype_int (to_numeric (Raw.teamId raw))); [|done].
  destruct (astype_int (to_numeric (Raw.personId raw))); [|done].
  intros [= <-]. unfold numeric_cols. repeat constructor.
Qed.

Lemma load_row_ids raw row :
  load_row raw = Ok row ->
  exists t p, to_numeric (Raw.teamId raw) = Some t
    /\ to_numeric (Raw.personId raw) = Some p
    /\ Row.teamId row = to_int64 t /\ Row.personId row = to_int64 p.
Proof.
  unfold load_row.
  destruct (to_numeric (Raw.teamId raw)) as [t|]; [|done].
  destruct (to_numeric (Raw.personId raw)) as [p|]; [|done].
  intros [= <-]. by exists t, p.
Qed.

Lemma load_row_total raw :
  ids_numeric raw -> exists row, load_row raw = Ok row.
Proof.
  intros [[t Ht] [p Hp]]. unfold load_row. rewrite Ht, Hp. by eexists.
Qed.

Lemma load_row_rejects raw :
  ~ ids_numeric raw -> load_row raw = Raise IntCastingNaNError.
Proof.
  unfold ids_numeric, load_row. intros Hno.
  destruct (to_numeric (Raw.teamId raw)) as [t|]; [|done].
  destruct (to_numeric (Raw.personId raw)) as [p|]; [|done].
  destruct Hno. by split.
Qed.

Lemma load_row_raises raw e :
  load_row raw = Raise e -> e = IntCastingNaNError.
Proof.
  unfold load_row.
  destruct (to_numeric (Raw.teamId raw)) as [t|]; [|by intros [= <-]].
  destruct (to_numeric (Raw.personId raw)) as [p|]; [|by intros [= <-]].
  done.
Qed.

Lemma load_data_ok csv :
  Forall ids_numeric csv ->
  exists df, _load_data csv = Ok df /\ Forall2 (fun raw row => load_row raw = Ok row) csv df.
Proof.
  unfold _load_data. induction 1 as [|raw csv Hraw _ (df & E & Hdf)]; simpl.
  - by exists [].
  - destruct (load_row_total raw Hraw) as [row Hrow].
    exists (row :: df). rewrite Hrow. simpl. rewrite E. simpl.
    split; [done|]. by constructor.
Qed.

Lemma load_data_rejects csv :
  ~ Forall ids_numeric csv -> _load_data csv = Raise IntCastingNaNError.
Proof.
  unfold _load_data. induction csv as [|raw csv IH]; intros Hno; simpl.
  - destruct Hno. constructor.
  - destruct (load_row raw) as [row|e] eqn:E; simpl.
    + rewrite IH; [done|]. intros Hall. apply Hno. constructor; [|done].
      unfold ids_numeric. apply load_row_ids in E as (t & p & -> & -> & _).
      by split.
    + by rewrite (load_row_raises raw e E).
Qed.

(** X15.  The stat columns are filled: a file whose identifier cells are all
    numeric loads, line for line, with each stat cell read as its number, or
    as 0 when it fails coercion, and each identifier cast to [int64]. *)
Theorem load_data_fills_stats csv :
  Forall ids_numeric csv ->
  exists df, _load_data csv = Ok df
    /\ length df = length csv
    /\ forall i raw, csv !! i = Some raw ->
         exists row, df !! i = Some row
           /\ (forall name cell value, (name, cell, value) ∈ numeric_cols ->
                 (forall q, to_numeric (cell raw) = Some q -> value row = q)
                 /\ (to_numeric (cell raw) = None -> value row = 0))
           /\ (exists t p,
                 to_numeric (Raw.teamId raw) = Some t
                 /\ to_numeric (Raw.personId raw) = Some p
                 /\ Row.teamId row = to_int64 t
                 /\ Row.personId row = to_int64 p).
Proof.
  intros (df & E & Hdf)%load_data_ok. exists df.
  split; [done|]. split; [symmetry; by eapply Forall2_length|].
  intros i raw Hi.
  destruct (Forall2_lookup_l _ _ _ _ _ Hdf Hi) as (row & Hrow & Hload).
  exists row. split; [done|]. split; [|by apply load_row_ids].
  intros name cell value Hcol.
  pose proof (load_row_cols raw row Hload) as Hcols.
  rewrite Forall_forall in Hcols. apply Hcols in Hcol. simpl in Hcol.
  rewrite Hcol. split; [by intros q ->|by intros ->].
Qed.

(** C9 (code defect).  The zero rule of the stat columns is not applied to
    the identifier columns: [to_numeric(errors="coerce")] turns a malformed
    or missing teamId or personId cell into NaN, no [fillna(0)] follows, and
    [astype(int)] raises on it.  A file with such a cell on any line is
    rejected instead of being loaded with that identifier read as zero. *)
Theorem load_data_identifier_not_filled csv :
  ~ Forall ids_numeric csv -> _load_data csv = Raise IntCastingNaNError.
Proof.
  intros Hno. destruct (_load_data csv) as [df|e] eqn:E.
  - by rewrite (load_data_rejects csv Hno) in E.
  - rewrite (load_data_rejects csv Hno) in E. by injection E as <-.
Qed.
End LoaderFacts.

Lemma load_data_fills_stats_witness :
  exists df row,
    _load_data csv_malformed_stats = Ok df
    /\ length df = 2%nat
    /\ df !! 0%nat = Some row
    /\ Row.points row = 0
    /\ Row.teamId row = 1610612738%Z.
Proof.
  destruct (load_data_fills_stats csv_malformed_stats)
    as (df & E & L & Hrows).
  { repeat constructor; by eexists. }
  destruct (Hrows 0%nat _ eq_refl)
    as (row & Hrow & Hcols & (t & p & Ht & _ & Hteam & _)).
  exists df, row. repeat split; [done..| |].
  - apply (Hcols "points"%string Raw.points Row.points); [|done].
    unfold numeric_cols. do 14 apply list_elem_of_further.
    apply list_elem_of_here.
  - injection Ht as <-. exact Hteam.
Defined.

Lemma load_data_identifier_not_filled_witness :
  _load_data csv_missing_team_id = Raise IntCastingNaNError.
Proof.
  apply (load_data_identifier_not_filled csv_missing_team_id).
  intros Hall. apply Forall_cons in Hall as [_ Hall].
  apply Forall_cons in Hall as [[[q Hq] _] _]. discriminate Hq.
Defined.

(** ** Metric calculator *)

Section MetricFacts.
Context {K : Type}.
Implicit Types row : Row.t K.

Lemma true_shooting_pos row :
  0 < ts_denominator row ->
  _calculate_true_shooting row = Row.points row / ts_denominator row.
Proof.
  intros Hd.
  change (_calculate_true_shooting row)
    with (if Qgtb (ts_denominator row) 0
          then Row.points row / ts_denominator row else 0).
  by rewrite (proj2 (Qgtb_true _ _) Hd).
Qed.

Lemma true_shooting_nonpos row :
  ts_denominator row <= 0 -> _calculate_true_shooting row = 0.
Proof.
  intros Hd.
  change (_calculate_true_shooting row)
    with (if Qgtb (ts_denominator row) 0
          then Row.points row / ts_denominator row else 0).
  by rewrite (proj2 (Qgtb_false _ _) Hd).
Qed.

Lemma ts_denominator_example row :
  Row.fieldGoalsAttempted row == 20 -> Row.freeThrowsAttempted row == 5 ->
  ts_denominator row == 44.4.
Proof. intros Ha Ht. unfold ts_denominator. rewrite Ha, Ht. reflexivity. Qed.

(** A row of non-negative attempt counts has a zero denominator only when
    both counts are zero. *)
Lemma ts_denominator_nonpos_iff row :
  0 <= Row.fieldGoalsAttempted row -> 0 <= Row.freeThrowsAttempted row ->
  (ts_denominator row <= 0 <->
   Row.fieldGoalsAttempted row == 0 /\ Row.freeThrowsAttempted row == 0).
Proof.
  unfold ts_denominator.
  generalize (Row.fieldGoalsAttempted row) (Row.freeThrowsAttempted row).
  intros [a ?] [b ?]. unfold Qle, Qeq, Qmult, Qplus. simpl. nia.
Qed.

Lemma true_shooting_zero_iff row :
  _calculate_true_shooting row == 0 <->
  Row.points row == 0 \/ ts_denominator row <= 0.
Proof.
  destruct (Qlt_le_dec 0 (ts_denominator row)) as [Hd|Hd].
  - rewrite (true_shooting_pos row Hd). split.
    + intros E. left.
      assert (ts_denominator row * (Row.points row / ts_denominator row)
              == Row.points row) as <-.
      { apply Qmult_div_r. intros F. rewrite F in Hd. by apply Qlt_irrefl in Hd. }
      rewrite E. ring.
    + intros [E|L]; [rewrite E; by unfold Qdiv; ring|].
      exfalso. by apply Qlt_not_le in Hd.
  - rewrite (true_shooting_nonpos row Hd). split; [by right|reflexivity].
Qed.

(** C1 (as amended).  True Shooting is points / (2 * (FGA + 0.44 * FTA))
    whenever that denominator is positive, and exactly 0 whenever it is
    not (zero or negative); a row with points = 30, FGA = 20, FTA = 5
    yields 30 / 44.4. *)
Theorem true_shooting_formula row :
  (0 < ts_denominator row ->
   _calculate_true_shooting row = Row.points row / ts_denominator row)
  /\ (ts_denominator row <= 0 -> _calculate_true_shooting row = 0)
  /\ (Row.points row == 30 -> Row.fieldGoalsAttempted row == 20 ->
      Row.freeThrowsAttempted row == 5 ->
      _calculate_true_shooting row == 30 / 44.4).
Proof.
  split; [apply true_shooting_pos|].
  split; [apply true_shooting_nonpos|].
  intros Hp Ha Ht.
  pose proof (ts_denominator_example row Ha Ht) as Hd.
  rewrite true_shooting_pos; [by rewrite Hp, Hd|].
  by rewrite Hd.
Qed.

(** C2.  The efficiency rating is (PTS + REB + AST + STL + BLK) -
    ((FGA - FGM) + (FTA - FTM) + TO); nothing clamps it, so some rows rate
    below zero; the example row of the spec rates 24. *)
Theorem efficiency_formula_correct row :
  _calculate_efficiency row = efficiency_formula row
  /\ (exists row' : Row.t K, _calculate_efficiency row' < 0)
  /\ (Row.points row == 20 -> Row.reboundsTotal row == 10 ->
      Row.assists row == 5 -> Row.steals row == 2 -> Row.blocks row == 1 ->
      Row.fieldGoalsMade row == 8 -> Row.fieldGoalsAttempted row == 18 ->
      Row.freeThrowsMade row == 4 -> Row.freeThrowsAttempted row == 5 ->
      Row.turnovers row == 3 ->
      _calculate_efficiency row == 24).
Proof.
  split; [reflexivity|]. split.
  - exists (Row.mk (Row.gameId row) "" 0 "" "" 0 (Str "") (Str "") (Str "")
              0 0 0 0 0 0 0 0 0 0 0 0 1 0 0 0).
    reflexivity.
  - intros Hp Hr Ha Hs Hb Hm Hat Hfm Hft Hto.
    unfold _calculate_efficiency.
    rewrite Hp, Hr, Ha, Hs, Hb, Hm, Hat, Hfm, Hft, Hto. reflexivity.
Qed.

(** C8 (as amended).  For a row with non-negative points True Shooting is
    in [0, +inf).  It is 0 exactly when the points are 0 or the denominator
    is not positive; for non-negative attempt counts, that is when the
    points are 0 or both attempt counts are 0. *)
Theorem true_shooting_range row :
  (0 <= Row.points row -> 0 <= _calculate_true_shooting row)
  /\ (_calculate_true_shooting row == 0 <->
      Row.points row == 0 \/ ts_denominator row <= 0)
  /\ (0 <= Row.fieldGoalsAttempted row -> 0 <= Row.freeThrowsAttempted row ->
      (_calculate_true_shooting row == 0 <->
       Row.points row == 0 \/
       (Row.fieldGoalsAttempted row == 0 /\ Row.freeThrowsAttempted row == 0))).
Proof.
  split; [|split; [apply true_shooting_zero_iff|]].
  - intros Hp. destruct (Qlt_le_dec 0 (ts_denominator row)) as [Hd|Hd].
    + rewrite (true_shooting_pos row Hd).
      apply Qle_shift_div_l; [done|]. by rewrite Qmult_0_l.
    + rewrite (true_shooting_nonpos row Hd). apply Qle_refl.
  - intros Ha Ht. rewrite true_shooting_zero_iff.
    by rewrite (ts_denominator_nonpos_iff row Ha Ht).
Qed.
End MetricFacts.

Lemma true_shooting_formula_witness :
  _calculate_true_shooting row_thirty_points
    = Row.points row_thirty_points / ts_denominator row_thirty_points
  /\ _calculate_true_shooting row_no_attempts = 0
  /\ _calculate_true_shooting row_thirty_points == 30 / 44.4.
Proof.
  split; [|split].
  - apply (proj1 (true_shooting_formula row_thirty_points)). reflexivity.
  - apply (proj1 (proj2 (true_shooting_formula row_no_attempts))).
    vm_compute. discriminate.
  - apply (proj2 (proj2 (true_shooting_formula row_thirty_points)));
      reflexivity.
Defined.

(** C1, the claim as written: with a negative attempt count the denominator
    is nonzero, yet the result is 0 and not the quotient. *)
Lemma true_shooting_negative_denominator :
  ~ (forall row : Row.t Z,
       (~ ts_denominator row == 0 ->
        _calculate_true_shooting row == Row.points row / ts_denominator row)
       /\ (ts_denominator row == 0 -> _calculate_true_shooting row = 0)).
Proof.
  intros Hclaim. destruct (Hclaim row_negative_attempts) as [Hquot _].
  assert (Hnz : ~ ts_denominator row_negative_attempts == 0)
    by (vm_compute; discriminate).
  apply Hquot in Hnz. vm_compute in Hnz. discriminate Hnz.
Qed.

Lemma efficiency_formula_correct_witness :
  _calculate_efficiency row_rating_24 == 24.
Proof.
  apply (proj2 (proj2 (efficiency_formula_correct row_rating_24)));
    reflexivity.
Defined.

Lemma true_shooting_range_witness :
  0 <= _calculate_true_shooting row_thirty_points
  /\ (_calculate_true_shooting row_scoreless == 0 <->
      Row.points row_scoreless == 0 \/
      (Row.fieldGoalsAttempted row_scoreless == 0
       /\ Row.freeThrowsAttempted row_scoreless == 0)).
Proof.
  split.
  - apply (proj1 (true_shooting_range row_thirty_points)).
    vm_compute. discriminate.
  - apply (proj2 (proj2 (true_shooting_range row_scoreless)));
      vm_compute; discriminate.
Defined.

(** C8, the claim as written: a player who scores nothing on three shots
    has True Shooting 0 although the attempts are not zero; and a negative
    score gives a negative value. *)
Lemma true_shooting_zero_with_attempts :
  ~ (forall row : Row.t Z,
       _calculate_true_shooting row == 0 <->
       Row.fieldGoalsAttempted row == 0 /\ Row.freeThrowsAttempted row == 0)
  /\ ~ (forall row : Row.t Z, 0 <= _calculate_true_shooting row).
Proof.
  split; intros Hclaim.
  - destruct (proj1 (Hclaim row_scoreless)) as [Ha _]; [reflexivity|].
    vm_compute in Ha. discriminate Ha.
  - specialize (Hclaim row_negative_points). vm_compute in Hclaim.
    by apply Hclaim.
Qed.

(** ** Query layer *)

Section QueryFacts.
Context {K : Type} `{GameKey K} {F : Type} `{Arith F}.
Implicit Types (df : list (Row.t K)) (row : Row.t K) (game_id : string).

Lemma elem_of_rows_of_game df game_id row :
  row ∈ rows_of_game df game_id <->
  row ∈ df /\ key_str (Row.gameId row) = game_id.
Proof. unfold rows_of_game. rewrite list_elem_of_filter. tauto. Qed.

Lemma rows_of_game_nil df game_id :
  rows_of_game df game_id = [] <->
  forall row, row ∈ df -> key_str (Row.gameId row) <> game_id.
Proof.
  split.
  - intros E row Hrow Hk.
    assert (Hin : row ∈ rows_of_game df game_id)
      by by apply elem_of_rows_of_game.
    rewrite E in Hin. by apply elem_of_nil in Hin.
  - intros Hno. destruct (rows_of_game df game_id) as [|row l] eqn:E; [done|].
    assert (Hin : row ∈ rows_of_game df game_id)
      by (rewrite E; apply elem_of_cons; by left).
    apply elem_of_rows_of_game in Hin as [Hin Hk]. by apply Hno in Hin.
Qed.

(** *** Validation *)

Lemma validate_str_ok (t : Text) (s : string) :
  validate_str t = Ok s <-> t = Str s.
Proof. destruct t; simpl; split; congruence. Qed.

Lemma validate_str_raises (t : Text) (e : exn) :
  validate_str t = Raise e -> e = ValidationError /\ forall s, t <> Str s.
Proof. destruct t; simpl; intros [= <-]; by split. Qed.


Lemma player_stats_inv row (p : PlayerStats.t F) :
  player_stats row = Ok p -> text_row row /\ p = player_entry row.
Proof.
  unfold player_stats, player_entry, text_row.
  destruct (Row.personName row); simpl; try done.
  destruct (Row.position row); simpl; try done.
  destruct (Row.minutes row); simpl; try done.
  intros [= <-]. repeat split; by eexists.
Qed.

Lemma player_stats_raises row (e : exn) :
  player_stats (F:=F) row = Raise e -> e = ValidationError /\ ~ text_row row.
Proof.
  unfold player_stats, text_row.
  destruct (Row.personName row); simpl;
    [|intros [= <-]; split; [done|by intros ([? ?] & _)]..].
  destruct (Row.position row); simpl;
    [|intros [= <-]; split; [done|by intros (_ & [? ?] & _)]..].
  destruct (Row.minutes row); simpl;
    [done|intros [= <-]; split; [done|by intros (_ & _ & [? ?])]..].
Qed.

(** *** [game_players] *)

Lemma game_players_missing df game_id :
  rows_of_game df game_id = [] ->
  game_players (F:=F) df game_id = Raise game_not_found.
Proof. intros E. unfold game_players. by rewrite bool_decide_eq_true_2. Qed.

Lemma game_players_present df game_id :
  rows_of_game df game_id <> [] ->
  game_players (F:=F) df game_id
  = for_rows player_stats (rows_of_game df game_id).
Proof. intros E. unfold game_players. by rewrite bool_decide_eq_false_2. Qed.


Lemma game_players_inv df game_id (players : list (PlayerStats.t F)) :
  game_players df game_id = Ok players ->
  rows_of_game df game_id <> []
  /\ Forall text_row (rows_of_game df game_id)
  /\ players = player_entry <$> rows_of_game df game_id.
Proof.
  intros Hp.
  destruct (decide (rows_of_game df game_id = [])) as [E|E].
  { by rewrite (game_players_missing _ _ E) in Hp. }
  split; [done|]. rewrite (game_players_present _ _ E) in Hp.
  apply for_rows_Forall2 in Hp. clear E.
  induction Hp as [|row p rows ps Hrow _ [IH1 IH2]]; [by split|].
  apply player_stats_inv in Hrow as [Ht ->].
  split; [by constructor|]. by rewrite fmap_cons, IH2.
Qed.

Lemma game_players_raises df game_id (e : exn) :
  game_players (F:=F) df game_id = Raise e ->
  (e = game_not_found /\ rows_of_game df game_id = [])
  \/ (e = ValidationError /\ exists row, row ∈ rows_of_game df game_id
                                          /\ ~ text_row row).
Proof.
  intros Hp.
  destruct (decide (rows_of_game df game_id = [])) as [E|E].
  { rewrite (game_players_missing _ _ E) in Hp. injection Hp as <-. by left. }
  right. rewrite (game_players_present _ _ E) in Hp.
  apply for_rows_raise in Hp as (row & Hrow & Hr).
  apply player_stats_raises in Hr as [-> Hr]. split; [done|]. by exists row.
Qed.

(** *** [game_charts] *)

Lemma chart_fold acc (rows : list (Row.t K)) :
  foldl (chart_step (F:=F)) acc rows =
  {| acc_labels := acc_labels acc ++ (Row.personName <$> rows);
     acc_points := acc_points acc ++ ((fun r => py_float (Row.points r)) <$> rows);
     acc_ts_list := acc_ts_list acc ++
       ((fun r => fround (_calculate_true_shooting r) 3) <$> rows);
     acc_momentum := acc_momentum acc ++
       ((fun r => py_float (Row.plusMinusPoints r)) <$> rows) |}.
Proof.
  revert acc. induction rows as [|r rows IH]; intros acc; simpl.
  - destruct acc. simpl. by rewrite !app_nil_r.
  - rewrite IH. simpl. by rewrite <- !app_assoc.
Qed.

Lemma validate_labels_ok (rows : list (Row.t K)) :
  Forall named_row rows ->
  for_rows validate_str (Row.personName <$> rows)
  = Ok ((fun r => text_of (Row.personName r)) <$> rows).
Proof.
  induction 1 as [|row rows [s Hs] _ IH]; [done|].
  by rewrite !fmap_cons, for_rows_cons, Hs, IH.
Qed.

Lemma validate_labels_inv (rows : list (Row.t K)) (labels : list string) :
  for_rows validate_str (Row.personName <$> rows) = Ok labels ->
  Forall named_row rows.
Proof.
  revert labels. induction rows as [|row rows IH]; intros labels; [by constructor|].
  rewrite fmap_cons, for_rows_cons.
  destruct (validate_str (Row.personName row)) as [s|e] eqn:E; [|done].
  destruct (for_rows validate_str (Row.personName <$> rows)) as [ls|e] eqn:E';
    [|done].
  intros _. constructor; [|by eapply IH].
  exists s. by apply validate_str_ok.
Qed.

Lemma game_charts_missing df game_id :
  rows_of_game df game_id = [] ->
  game_charts (F:=F) df game_id = Raise game_not_found.
Proof. intros E. unfold game_charts. by rewrite bool_decide_eq_true_2. Qed.

Lemma game_charts_present df game_id :
  rows_of_game df game_id <> [] ->
  game_charts (F:=F) df game_id
  = (labels ← for_rows validate_str (Row.personName <$> rows_of_game df game_id);
     mret {| ChartData.labels := labels;
             ChartData.datasets := ChartData.datasets (chart_of (rows_of_game df game_id)) |}).
Proof.
  intros E. unfold game_charts. rewrite bool_decide_eq_false_2 by done.
  by rewrite chart_fold.
Qed.

Lemma game_charts_found df game_id :
  rows_of_game df game_id <> [] ->
  Forall named_row (rows_of_game df game_id) ->
  game_charts (F:=F) df game_id = Ok (chart_of (rows_of_game df game_id)).
Proof.
  intros E Hall. rewrite (game_charts_present _ _ E).
  by rewrite (validate_labels_ok _ Hall).
Qed.

Lemma game_charts_inv df game_id (chart : ChartData.t F) :
  game_charts df game_id = Ok chart ->
  rows_of_game df game_id <> []
  /\ Forall named_row (rows_of_game df game_id)
  /\ chart = chart_of (rows_of_game df game_id).
Proof.
  intros Hc.
  destruct (decide (rows_of_game df game_id = [])) as [E|E].
  { by rewrite (game_charts_missing _ _ E) in Hc. }
  split; [done|]. rewrite (game_charts_present _ _ E) in Hc.
  destruct (for_rows validate_str _) as [labels|e] eqn:El; simpl in Hc; [|done].
  pose proof (validate_labels_inv _ _ El) as Hall. split; [done|].
  rewrite (validate_labels_ok _ Hall) in El. injection El as <-.
  by injection Hc as <-.
Qed.

Lemma game_charts_raises df game_id (e : exn) :
  game_charts (F:=F) df game_id = Raise e ->
  (e = game_not_found /\ rows_of_game df game_id = [])
  \/ (e = ValidationError /\ rows_of_game df game_id <> []).
Proof.
  intros Hc.
  destruct (decide (rows_of_game df game_id = [])) as [E|E].
  { rewrite (game_charts_missing _ _ E) in Hc. injection Hc as <-. by left. }
  right. split; [|done]. rewrite (game_charts_present _ _ E) in Hc.
  destruct (for_rows validate_str _) as [labels|e'] eqn:El; simpl in Hc; [done|].
  injection Hc as <-.
  apply for_rows_raise in El as (t & _ & Ht).
  by apply validate_str_raises in Ht as [-> _].
Qed.
End QueryFacts.

Section GroupFacts.
Context {K : Type} `{GameKey K}.
Implicit Types (df group : list (Row.t K)) (row : Row.t K) (k : K).

Lemma game_keys_perm df :
  game_keys df ≡ₚ drop_duplicates (Row.gameId <$> df).
Proof. apply merge_sort_Permutation. Qed.

Lemma elem_of_game_keys df k :
  k ∈ game_keys df <-> exists row, row ∈ df /\ Row.gameId row = k.
Proof.
  rewrite game_keys_perm, elem_of_drop_duplicates, list_elem_of_fmap.
  split; intros (row & ? & ?); exists row; by split.
Qed.

Lemma NoDup_game_keys df : NoDup (game_keys df).
Proof. rewrite game_keys_perm. apply NoDup_drop_duplicates. Qed.

Lemma length_game_keys df :
  length (game_keys df) = length (remove_dups (Row.gameId <$> df)).
Proof. by rewrite game_keys_perm, length_drop_duplicates. Qed.

Lemma game_info_ok k row group :
  game_info k (row :: group) = Ok (game_info_of k (row :: group)).
Proof.
  unfold game_info, game_info_of.
  rewrite !fmap_cons, drop_duplicates_cons. simpl.
  by destruct (drop_duplicates_from _ _).
Qed.

Lemma group_nonempty df k :
  k ∈ game_keys df -> filter (fun r => Row.gameId r = k) df <> [].
Proof.
  intros (row & Hrow & Hk)%elem_of_game_keys E.
  assert (Hin : row ∈ filter (fun r => Row.gameId r = k) df)
    by by apply list_elem_of_filter.
  rewrite E in Hin. by apply elem_of_nil in Hin.
Qed.

(** [list_games] never raises: every group [groupby] hands out has a
    first row. *)
Lemma list_games_ok df :
  list_games df =
  Ok ((fun k => game_info_of k (filter (fun r => Row.gameId r = k) df))
        <$> game_keys df).
Proof.
  unfold list_games, groupby_gameId. fold (game_keys df).
  rewrite (for_rows_ok _ (fun '(k, group) => game_info_of k group)).
  - by rewrite <- list_fmap_compose.
  - intros [k group] (k' & [= -> ->] & Hk)%list_elem_of_fmap.
    apply group_nonempty in Hk.
    destruct (filter _ df) as [|row group]; [done|]. apply game_info_ok.
Qed.

Context `{!GameKeyLawful K}.

Lemma group_rows_of_game df k :
  filter (fun r => Row.gameId r = k) df = rows_of_game df (key_str k).
Proof.
  unfold rows_of_game. apply list_filter_iff. intros row. split.
  - by intros ->.
  - apply key_str_inj.
Qed.
End GroupFacts.

Section QueryTheorems.
Context {K : Type} `{GameKey K} {F : Type} `{Arith F}.
Implicit Types (df : list (Row.t K)) (row : Row.t K) (game_id : string).

(** C3.  For every game identifier, "list players" and "chart data" each
    fail with Not-Found exactly when no row of the dataset has a gameId
    whose string form is the queried string; a failing call returns no
    result at all. *)
Theorem not_found_iff_no_row df game_id :
  let absent := forall row, row ∈ df -> key_str (Row.gameId row) <> game_id in
  (game_players (F:=F) df game_id = Raise game_not_found <-> absent)
  /\ (game_charts (F:=F) df game_id = Raise game_not_found <-> absent)
  /\ (absent -> forall players, game_players (F:=F) df game_id <> Ok players)
  /\ (absent -> forall chart, game_charts (F:=F) df game_id <> Ok chart).
Proof.
  intros absent. unfold absent. rewrite <- rows_of_game_nil.
  destruct (decide (rows_of_game df game_id = [])) as [E|E].
  - rewrite (game_players_missing _ _ E), (game_charts_missing _ _ E).
    repeat split; done.
  - split; [|split; [|split]]; try done.
    + split; [|done]. intros Hp.
      by apply game_players_raises in Hp as [[_ ?]|[? _]].
    + split; [|done]. intros Hc.
      by apply game_charts_raises in Hc as [[_ ?]|[? _]].
Qed.


(** C5 (as amended).  For a gameId with at least one row, all of whose
    rows hold text in their player name cell, "chart data" returns labels,
    points, true_shooting and momentum of one length, the number of rows of
    the game; position i of each holds the value of the i-th row in source
    order: its player name, its points and plus-minus as floats, its True
    Shooting rounded to 3 decimals. *)
Theorem game_charts_aligned df game_id :
  (exists row, row ∈ df /\ key_str (Row.gameId row) = game_id) ->
  (forall row, row ∈ df -> key_str (Row.gameId row) = game_id -> named_row row) ->
  let rows := rows_of_game df game_id in
  exists (chart : ChartData.t F) points true_shooting momentum,
    game_charts df game_id = Ok chart
    /\ ChartData.datasets chart !! "points"%string = Some points
    /\ ChartData.datasets chart !! "true_shooting"%string = Some true_shooting
    /\ ChartData.datasets chart !! "momentum"%string = Some momentum
    /\ length (ChartData.labels chart) = length rows
    /\ length points = length rows
    /\ length true_shooting = length rows
    /\ length momentum = length rows
    /\ forall i row, rows !! i = Some row ->
         (exists name, Row.personName row = Str name
                       /\ ChartData.labels chart !! i = Some name)
         /\ points !! i = Some (py_float (Row.points row))
         /\ true_shooting !! i = Some (fround (_calculate_true_shooting row) 3)
         /\ momentum !! i = Some (py_float (Row.plusMinusPoints row)).
Proof.
  intros (row0 & Hin & Hk) Hnamed rows.
  assert (Hne : rows <> []).
  { intros E. by apply (proj1 (rows_of_game_nil df game_id) E row0). }
  assert (Hall : Forall named_row rows).
  { apply Forall_forall. intros row [Hrow Hid]%elem_of_rows_of_game.
    by apply Hnamed. }
  eexists (chart_of rows), _, _, _.
  split; [by apply game_charts_found|].
  do 3 (split; [reflexivity|]). simpl.
  rewrite !length_fmap. do 4 (split; [reflexivity|]).
  intros i row Hi. rewrite !list_lookup_fmap, Hi.
  split; [|done].
  destruct (proj1 (Forall_forall _ _) Hall row) as [name Hname].
  { by eapply list_elem_of_lookup_2. }
  exists name. split; [done|]. simpl. by rewrite Hname.
Qed.


Context `{!GameKeyLawful K}.

(** C7.  "List games" returns one entry per distinct gameId and no
    duplicates: as many entries as the source has distinct gameId values,
    every row's game among them, and each entry's date read from a row of
    its own group (the first one). *)
Theorem list_games_one_per_game df :
  exists games,
    list_games df = Ok games
    /\ NoDup (GameInfo.gameId <$> games)
    /\ NoDup games
    /\ length games = length (remove_dups (Row.gameId <$> df))
    /\ (forall row, row ∈ df ->
          key_str (Row.gameId row) ∈ GameInfo.gameId <$> games)
    /\ (forall g, g ∈ games ->
          exists row, head (rows_of_game df (GameInfo.gameId g)) = Some row
            /\ row ∈ df
            /\ key_str (Row.gameId row) = GameInfo.gameId g
            /\ GameInfo.game_date g = Row.game_date row).
Proof.
  eexists. split; [apply list_games_ok|].
  set (info := fun k => game_info_of k _).
  assert (Hids : GameInfo.gameId <$> (info <$> game_keys df)
                 = key_str <$> game_keys df).
  { rewrite <- list_fmap_compose. done. }
  assert (Hnd : NoDup (GameInfo.gameId <$> (info <$> game_keys df))).
  { rewrite Hids. apply NoDup_fmap_2; [|apply NoDup_game_keys].
    intros a b. apply key_str_inj. }
  split; [exact Hnd|].
  split; [by apply NoDup_fmap_1 in Hnd|].
  split; [by rewrite length_fmap, length_game_keys|].
  split.
  - intros row Hrow. rewrite Hids. apply list_elem_of_fmap.
    exists (Row.gameId row). split; [done|].
    apply elem_of_game_keys. by exists row.
  - intros g (k & -> & Hk)%list_elem_of_fmap. unfold info. simpl.
    pose proof (group_nonempty df k Hk) as Hne.
    rewrite group_rows_of_game in *.
    destruct (rows_of_game df (key_str k)) as [|row rows] eqn:E; [done|].
    exists row. split; [done|].
    assert (Hrow : row ∈ rows_of_game df (key_str k))
      by (rewrite E; apply elem_of_cons; by left).
    apply elem_of_rows_of_game in Hrow as [? ?]. done.
Qed.

(** C6.  Every entry of "list games" has a teams list holding one display
    string: "<TeamA> vs. <TeamB>" when the rows of the group name exactly
    two distinct teams, TeamA being the one met first, and the team name
    alone when they name only one. *)
Theorem list_games_teams df games g :
  list_games df = Ok games -> g ∈ games ->
  let names := Row.teamName <$> rows_of_game df (GameInfo.gameId g) in
  length (GameInfo.teams g) = 1%nat
  /\ (forall a b, a <> b -> head names = Some a -> b ∈ names ->
        (forall n, n ∈ names -> n = a \/ n = b) ->
        GameInfo.teams g = [a +:+ " vs. " +:+ b])
  /\ (forall a, (forall n, n ∈ names -> n = a) -> GameInfo.teams g = [a]).
Proof.
  rewrite list_games_ok. intros [= <-] (k & -> & Hk)%list_elem_of_fmap.
  simpl. pose proof (group_nonempty df k Hk) as Hne.
  rewrite group_rows_of_game in *.
  split; [done|]. split.
  - intros a b Hab Hhd Hb Hall.
    by rewrite (drop_duplicates_two a b).
  - intros a Hall. rewrite (drop_duplicates_one a); [done| |done].
    by intros E%fmap_nil_inv.
Qed.
End QueryTheorems.
(** ** The theorems at work on [sample_df] *)

Lemma not_found_iff_no_row_witness :
  game_players (F:=spec_float) sample_df "42300199" = Raise game_not_found
  /\ game_charts (F:=spec_float) sample_df "42300199" = Raise game_not_found.
Proof.
  assert (Habs : forall row, row ∈ sample_df ->
                   key_str (Row.gameId row) <> "42300199"%string).
  { intros row Hrow.
    repeat (apply elem_of_cons in Hrow as [->|Hrow];
            [vm_compute; discriminate|]).
    by apply elem_of_nil in Hrow. }
  split.
  - apply (proj2 (proj1 (not_found_iff_no_row sample_df "42300199"))).
    exact Habs.
  - apply (proj2 (proj1 (proj2 (not_found_iff_no_row sample_df "42300199")))).
    exact Habs.
Defined.

Lemma sample_game_present :
  exists row, row ∈ sample_df /\ key_str (Row.gameId row) = "42300101"%string.
Proof.
  exists row_thirty_points. split; [apply list_elem_of_here|reflexivity].
Defined.

Lemma sample_ties_present :
  exists row, row ∈ sample_ties /\ key_str (Row.gameId row) = "42300104"%string.
Proof.
  eexists. split; [apply list_elem_of_here|reflexivity].
Defined.

Lemma sample_ties_text (row : Row.t Z) :
  row ∈ sample_ties -> key_str (Row.gameId row) = "42300104"%string ->
  text_row row.
Proof.
  intros Hrow _.
  repeat (apply elem_of_cons in Hrow as [->|Hrow];
          [repeat split; by eexists|]).
  by apply elem_of_nil in Hrow.
Defined.

Lemma sample_ties_named (row : Row.t Z) :
  row ∈ sample_ties -> key_str (Row.gameId row) = "42300104"%string ->
  named_row row.
Proof. intros Hrow Hk. by destruct (sample_ties_text row Hrow Hk) as [? _]. Defined.



(** In binary64 the second quotient of [sample_ties] is just above 0.2625
    and is reported as 0.263. *)
Lemma game_charts_aligned_witness :
  exists (chart : ChartData.t spec_float) true_shooting,
    game_charts sample_ties "42300104" = Ok chart
    /\ ChartData.labels chart = ["A"%string; "B"%string]
    /\ ChartData.datasets chart !! "true_shooting"%string = Some true_shooting
    /\ true_shooting !! 1%nat = Some (B64.of_Q 0.263).
Proof.
  destruct (game_charts_aligned (F:=spec_float) sample_ties "42300104"
              sample_ties_present sample_ties_named)
    as (chart & points & ts & momentum & E & _ & Hts & _ & L & _ & _ & _ & Hrows).
  destruct (Hrows 0%nat _ eq_refl) as ((a & Ha & Hla) & _).
  destruct (Hrows 1%nat _ eq_refl) as ((b & Hb & Hlb) & _ & Hval & _).
  injection Ha as <-. injection Hb as <-.
  exists chart, ts. split; [done|]. split; [|split; [done|]].
  - destruct (ChartData.labels chart) as [|x [|y [|z l]]]; try discriminate L.
    injection Hla as ->. by injection Hlb as ->.
  - rewrite Hval. vm_compute. reflexivity.
Defined.

(** C5, the claim as written: a game whose only line has no player name
    is present in the dataset, and "chart data" raises for it. *)
Lemma game_charts_missing_name :
  ~ (forall (df : list (Row.t Z)) (game_id : string),
       (exists row, row ∈ df /\ key_str (Row.gameId row) = game_id) ->
       exists chart : ChartData.t spec_float,
         game_charts df game_id = Ok chart
         /\ length (ChartData.labels chart) = length (rows_of_game df game_id)).
Proof.
  intros Hclaim.
  destruct (Hclaim [row_unnamed] "42300106") as (chart & E & _).
  - exists row_unnamed. split; [apply list_elem_of_here|reflexivity].
  - vm_compute in E. discriminate E.
Qed.



Lemma list_games_one_per_game_witness :
  exists games, list_games sample_df = Ok games /\ length games = 2%nat.
Proof.
  destruct (list_games_one_per_game sample_df) as (games & E & _ & _ & L & _).
  exists games. split; [done|]. rewrite L. reflexivity.
Defined.

Lemma list_games_teams_witness :
  exists games two one,
    list_games sample_df = Ok games
    /\ two ∈ games /\ GameInfo.teams two = ["Celtics vs. Heat"%string]
    /\ one ∈ games /\ GameInfo.teams one = ["Knicks"%string].
Proof.
  assert (E : list_games sample_df =
              Ok [ GameInfo.mk "42300101" "2024-04-21" ["Celtics vs. Heat"%string];
                   GameInfo.mk "42300102" "2024-04-21" ["Knicks"%string] ])
    by reflexivity.
  eexists _, _, _. split; [exact E|].
  split; [apply list_elem_of_here|].
  split; [|split; [apply list_elem_of_further, list_elem_of_here|]].
  - apply (proj1 (proj2 (list_games_teams sample_df _ _ E (list_elem_of_here _ _)))
             "Celtics"%string "Heat"%string).
    + discriminate.
    + reflexivity.
    + apply list_elem_of_further, list_elem_of_here.
    + intros n Hn.
      repeat (apply elem_of_cons in Hn as [->|Hn]; [tauto|]).
      by apply elem_of_nil in Hn.
  - apply (proj2 (proj2 (list_games_teams sample_df _ _ E
                           (list_elem_of_further _ _ _ (list_elem_of_here _ _))))
             "Knicks"%string).
    intros n Hn.
    repeat (apply elem_of_cons in Hn as [->|Hn]; [reflexivity|]).
    by apply elem_of_nil in Hn.
Defined.

(** * Further properties of the loader and the queries *)

(** ** Whole numbers, sums and decimal strings *)

Lemma py_int_whole (q : Q) (n : Z) : q == inject_Z n -> py_int q = n.
Proof.
  destruct q as [a b]. unfold Qeq, py_int. simpl. intros E.
  rewrite Z.mul_1_r in E. rewrite E. apply Z.quot_mul. done.
Qed.

Lemma to_int64_whole (q : Q) (n : Z) :
  q == inject_Z n -> (int64_min <= n <= int64_max)%Z -> to_int64 q = n.
Proof.
  intros Hq Hn. unfold to_int64. rewrite (py_int_whole q n Hq).
  by rewrite bool_decide_eq_true_2.
Qed.

Lemma round_half_even_whole (q : Q) (n : Z) :
  q == inject_Z n -> round_half_even q = n.
Proof.
  intros E. unfold round_half_even.
  rewrite (Qfloor_comp _ _ E), Qfloor_Z.
  assert (C : Qcompare (q - inject_Z n) (1 # 2) = Lt).
  { apply Qlt_alt.
    assert (H0 : q - inject_Z n == 0) by (rewrite E; ring).
    by rewrite H0. }
  by rewrite C.
Qed.

Lemma py_round_whole (q : Q) (n : Z) (ndigits : nat) :
  q == inject_Z n -> py_round q ndigits == inject_Z n.
Proof.
  intros E. unfold py_round. rewrite Qred_correct.
  assert (Hs : (0 < 10 ^ Z.of_nat ndigits)%Z) by (apply Z.pow_pos_nonneg; lia).
  rewrite (round_half_even_whole _ (n * 10 ^ Z.of_nat ndigits)).
  - rewrite inject_Z_mult. apply Qdiv_mult_l.
    intros F. unfold Qeq in F. simpl in F. lia.
  - rewrite E. by rewrite inject_Z_mult.
Qed.

Lemma round_half_even_nonneg (x : Q) : 0 <= x -> (0 <= round_half_even x)%Z.
Proof.
  intros Hx. unfold round_half_even.
  assert (Hf : (0 <= Qfloor x)%Z).
  { change 0%Z with (Qfloor 0). by apply Qfloor_resp_le. }
  destruct (Qcompare _ _); [destruct (Z.even _)|..]; lia.
Qed.

Lemma py_round_nonneg (x : Q) (ndigits : nat) : 0 <= x -> 0 <= py_round x ndigits.
Proof.
  intros Hx. unfold py_round. rewrite Qred_correct.
  assert (Hs : (0 < 10 ^ Z.of_nat ndigits)%Z) by (apply Z.pow_pos_nonneg; lia).
  assert (Hq : 0 < inject_Z (10 ^ Z.of_nat ndigits)).
  { change 0 with (inject_Z 0). by rewrite <- Zlt_Qlt. }
  apply Qle_shift_div_l; [done|]. rewrite Qmult_0_l.
  change 0 with (inject_Z 0). rewrite <- Zle_Qle.
  apply round_half_even_nonneg. apply Qmult_le_0_compat; [done|].
  by apply Qlt_le_weak.
Qed.


Section SumFacts.
Context {A : Type} `{EqDecision A}.




Lemma drop_duplicates_from_app_seen (seen pre l : list A) :
  (forall x, x ∈ pre -> x ∈ seen) ->
  drop_duplicates_from seen (pre ++ l) = drop_duplicates_from seen l.
Proof.
  induction pre as [|y pre IH]; intros Hpre; simpl; [done|].
  rewrite decide_True by (apply Hpre, elem_of_cons; by left).
  apply IH. intros x Hx. apply Hpre, elem_of_cons. by right.
Qed.

Lemma drop_duplicates_nil_inv (l : list A) : drop_duplicates l = [] -> l = [].
Proof. destruct l as [|x l]; [done|]. by rewrite drop_duplicates_cons. Qed.
End SumFacts.

Lemma to_uint_no_leading_zero (p : positive) (u : Decimal.uint) :
  Pos.to_uint p <> Decimal.D0 u.
Proof.
  intros E.
  assert (Hn : Decimal.unorm (Pos.to_uint p) = Pos.to_uint p).
  { rewrite <- Unsigned.to_of, Unsigned.of_to. reflexivity. }
  rewrite E, unorm_D0 in Hn.
  destruct u as [|u|u|u|u|u|u|u|u|u|u];
    [pose proof (Unsigned.of_to p) as Hp; rewrite E in Hp; discriminate Hp|..];
    (match type of Hn with Decimal.unorm ?v = _ =>
       assert (Hu : v <> Decimal.Nil) by discriminate;
       pose proof (nb_digits_unorm v Hu) as Hd end;
     rewrite Hn in Hd; simpl in Hd; lia).
Qed.

(** The decimal form of an integer starts with [0] only for zero itself. *)
Lemma str_of_int_leading_zero (z : Z) (s : string) :
  str_of_int z = String "0"%char s -> z = 0%Z /\ s = ""%string.
Proof.
  unfold str_of_int. intros E. cbn in E. destruct z as [|p|p]; cbn in E.
  - by injection E as <-.
  - pose proof (Unsigned.to_uint_nonnil p) as Hnil.
    pose proof (to_uint_no_leading_zero p) as Hz.
    destruct (Pos.to_uint p) as [|u|u|u|u|u|u|u|u|u|u]; cbn in E;
      try discriminate E; [done|]. by destruct (Hz u).
  - discriminate E.
Qed.

(** ** Loader and entries *)

Section MoreLoader.
Context {K : Type}.
Implicit Types (csv : list (Raw.t K)) (raw : Raw.t K) (row : Row.t K).

Lemma load_row_text raw row :
  load_row raw = Ok row ->
  Row.gameId row = Raw.gameId raw
  /\ Row.game_date row = Raw.game_date raw
  /\ Row.teamName row = Raw.teamName raw
  /\ Row.teamTricode row = Raw.teamTricode raw
  /\ Row.personName row = Raw.personName raw
  /\ Row.position row = Raw.position raw
  /\ Row.minutes row = Raw.minutes raw.
Proof.
  unfold load_row.
  destruct (astype_int (to_numeric (Raw.teamId raw))); [|done].
  destruct (astype_int (to_numeric (Raw.personId raw))); [|done].
  by intros [= <-].
Qed.

(** X2.  Team and player identifiers written as whole numbers in the
    range of [int64] survive the load unchanged: [astype(int)] loses nothing
    on them. *)
Theorem load_data_keeps_whole_ids csv df i raw (team person : Z) :
  _load_data csv = Ok df ->
  csv !! i = Some raw ->
  Raw.teamId raw = Number (inject_Z team) ->
  Raw.personId raw = Number (inject_Z person) ->
  (int64_min <= team <= int64_max)%Z ->
  (int64_min <= person <= int64_max)%Z ->
  exists row, df !! i = Some row
    /\ Row.teamId row = team /\ Row.personId row = person.
Proof.
  intros Hload%for_rows_Forall2 Hi Ht Hp Hrt Hrp.
  destruct (Forall2_lookup_l _ _ _ _ _ Hload Hi) as (row & Hrow & Hr).
  exists row. split; [done|].
  apply load_row_ids in Hr as (t & p & Et & Ep & -> & ->).
  rewrite Ht in Et. rewrite Hp in Ep. simpl in Et, Ep.
  injection Et as <-. injection Ep as <-.
  split; by apply to_int64_whole.
Qed.
End MoreLoader.

Section QueryEntries.
Context {K : Type} `{GameKey K} {F : Type} `{Arith F}.
Implicit Types (df : list (Row.t K)) (row : Row.t K) (game_id : string).

(** X3.  "List games" returns the empty list exactly for the empty
    dataset; it never raises and never hides a non-empty dataset. *)
Theorem list_games_empty_iff df :
  list_games df = Ok [] <-> df = [].
Proof.
  rewrite list_games_ok. split.
  - intros [= E]. apply fmap_nil_inv in E.
    pose proof (game_keys_perm df) as Hp. rewrite E in Hp.
    apply Permutation_nil_l in Hp. symmetry in Hp.
    apply drop_duplicates_nil_inv in Hp.
    by apply fmap_nil_inv in Hp.
  - by intros ->.
Qed.

(** X4.  The ids "list games" returns are exactly the ids the two per-game
    endpoints know: a listed id is never answered Not-Found, and an id that
    is not listed always is. *)
Theorem listed_iff_found df games game_id :
  list_games df = Ok games ->
  (game_id ∈ GameInfo.gameId <$> games <->
     game_players (F:=F) df game_id <> Raise game_not_found)
  /\ (game_id ∈ GameInfo.gameId <$> games <->
     game_charts (F:=F) df game_id <> Raise game_not_found).
Proof.
  rewrite list_games_ok. intros [= <-].
  rewrite <- list_fmap_compose.
  assert (Hin : game_id ∈ key_str <$> game_keys df <->
                rows_of_game df game_id <> []).
  { rewrite list_elem_of_fmap. split.
    - intros (k & -> & (row & Hrow & <-)%elem_of_game_keys) E.
      by apply (proj1 (rows_of_game_nil df _) E row).
    - intros Hne. destruct (rows_of_game df game_id) as [|row l] eqn:E; [done|].
      assert (Hrow : row ∈ rows_of_game df game_id)
        by (rewrite E; apply list_elem_of_here).
      apply elem_of_rows_of_game in Hrow as [Hrow <-].
      exists (Row.gameId row). split; [done|].
      apply elem_of_game_keys. by exists row. }
  change (GameInfo.gameId ∘ _) with (key_str (K:=K)).
  rewrite Hin.
  destruct (decide (rows_of_game df game_id = [])) as [E|E].
  - rewrite (game_players_missing _ _ E), (game_charts_missing _ _ E).
    split; (split; [done|by intros []]).
  - split; (split; [intros _|done]).
    + intros Hp. by apply game_players_raises in Hp as [[_ ?]|[? _]].
    + intros Hc. by apply game_charts_raises in Hc as [[_ ?]|[? _]].
Qed.

(** X5.  Every entry of "list players" comes from the row at the same
    position among the game's rows: identifiers, names, position and
    minutes are copied, and each counting stat that is a whole number is
    returned as that number ([int] truncates nothing). *)
Theorem game_players_entry_fields df game_id
    (players : list (PlayerStats.t F)) i p :
  game_players df game_id = Ok players ->
  players !! i = Some p ->
  exists row,
    rows_of_game df game_id !! i = Some row
    /\ row ∈ df
    /\ PlayerStats.teamId p = Row.teamId row
    /\ PlayerStats.teamName p = Row.teamName row
    /\ PlayerStats.teamTricode p = Row.teamTricode row
    /\ PlayerStats.personId p = Row.personId row
    /\ Row.personName row = Str (PlayerStats.personName p)
    /\ Row.position row = Str (PlayerStats.position p)
    /\ Row.minutes row = Str (PlayerStats.minutes p)
    /\ (whole (Row.points row) ->
        inject_Z (PlayerStats.points p) == Row.points row)
    /\ (whole (Row.reboundsTotal row) ->
        inject_Z (PlayerStats.rebounds p) == Row.reboundsTotal row)
    /\ (whole (Row.assists row) ->
        inject_Z (PlayerStats.assists p) == Row.assists row)
    /\ (whole (Row.steals row) ->
        inject_Z (PlayerStats.steals p) == Row.steals row)
    /\ (whole (Row.blocks row) ->
        inject_Z (PlayerStats.blocks p) == Row.blocks row)
    /\ (whole (Row.turnovers row) ->
        inject_Z (PlayerStats.turnovers p) == Row.turnovers row)
    /\ (whole (Row.plusMinusPoints row) ->
        inject_Z (PlayerStats.plusMinus p) == Row.plusMinusPoints row).
Proof.
  intros (_ & Hall & ->)%game_players_inv Hp.
  rewrite list_lookup_fmap in Hp.
  destruct (rows_of_game df game_id !! i) as [row|] eqn:Hrow; [|done].
  injection Hp as <-. exists row. split; [done|].
  apply list_elem_of_lookup_2 in Hrow.
  destruct (proj1 (Forall_forall _ _) Hall row Hrow)
    as ((n & Hn) & (q & Hq) & (m & Hm)).
  split; [by apply elem_of_rows_of_game in Hrow as [? _]|].
  do 4 (split; [reflexivity|]). simpl.
  rewrite Hn, Hq, Hm. do 3 (split; [reflexivity|]).
  repeat split; intros [k Hk]; by rewrite (py_int_whole _ k Hk).
Qed.
End QueryEntries.

(** ** Metrics in the responses *)

Section QueryMetrics.
Context {K : Type} `{GameKey K}.
Implicit Types (df : list (Row.t K)) (row : Row.t K) (game_id : string).

(** X6.  "List games" lists the games in ascending order of their gameId
    values, the order [groupby] gives its keys, whatever the order of the
    rows.  (The order of the column must be total and transitive, as those
    of integers and strings are.) *)
Theorem list_games_sorted df games :
  Total (key_le (K:=K)) -> Transitive (key_le (K:=K)) ->
  list_games df = Ok games ->
  exists keys,
    StronglySorted key_le keys
    /\ GameInfo.gameId <$> games = key_str <$> keys.
Proof.
  intros Htot Htrans. rewrite list_games_ok. intros [= <-].
  exists (game_keys df). split.
  - by apply StronglySorted_merge_sort.
  - by rewrite <- list_fmap_compose.
Qed.

Lemma true_shooting_nonneg row :
  0 <= Row.points row -> 0 <= _calculate_true_shooting row.
Proof.
  intros Hp. destruct (Qlt_le_dec 0 (ts_denominator row)) as [Hd|Hd].
  - rewrite (true_shooting_pos row Hd).
    apply Qle_shift_div_l; [done|]. by rewrite Qmult_0_l.
  - rewrite (true_shooting_nonpos row Hd). apply Qle_refl.
Qed.

Lemma whole_plus (a b : Q) : whole a -> whole b -> whole (a + b).
Proof.
  intros [n Hn] [m Hm]. exists (n + m)%Z.
  by rewrite Hn, Hm, inject_Z_plus.
Qed.

Lemma whole_minus (a b : Q) : whole a -> whole b -> whole (a - b).
Proof.
  intros [n Hn] [m Hm]. exists (n - m)%Z.
  rewrite Hn, Hm. unfold Z.sub. by rewrite inject_Z_plus, inject_Z_opp.
Qed.

Lemma efficiency_whole row :
  Forall whole (efficiency_inputs row) -> whole (_calculate_efficiency row).
Proof.
  unfold efficiency_inputs. intros Hall.
  repeat (apply Forall_cons in Hall as [? Hall]).
  unfold _calculate_efficiency. cbv zeta.
  repeat first [apply whole_minus | apply whole_plus]; assumption.
Qed.

(** X8.  In every entry of "list players" the reported true_shooting is
    not negative when the row's points are not, and is 0 for a row without
    attempts; the reported efficiency is the exact rating when the stats it
    reads are whole numbers (rounding to 2 places changes nothing). *)
Theorem game_players_metrics_exact df game_id
    (players : list (PlayerStats.t Q)) i p :
  game_players df game_id = Ok players ->
  players !! i = Some p ->
  exists row,
    rows_of_game df game_id !! i = Some row
    /\ (0 <= Row.points row -> 0 <= PlayerStats.true_shooting p)
    /\ (Row.fieldGoalsAttempted row == 0 -> Row.freeThrowsAttempted row == 0 ->
        PlayerStats.true_shooting p == 0)
    /\ (Forall whole (efficiency_inputs row) ->
        PlayerStats.efficiency p == _calculate_efficiency row).
Proof.
  intros (_ & _ & ->)%game_players_inv Hp.
  rewrite list_lookup_fmap in Hp.
  destruct (rows_of_game df game_id !! i) as [row|] eqn:Hrow; [|done].
  injection Hp as <-. exists row. split; [done|].
  change (PlayerStats.true_shooting (player_entry row))
    with (py_round (_calculate_true_shooting row) 3).
  change (PlayerStats.efficiency (player_entry row))
    with (py_round (_calculate_efficiency row) 2).
  split; [|split].
  - intros Hpts. apply py_round_nonneg.
    by apply true_shooting_nonneg.
  - intros Ha Ht. rewrite true_shooting_nonpos; [reflexivity|].
    unfold ts_denominator. rewrite Ha, Ht. discriminate.
  - intros [n Hn]%efficiency_whole. rewrite (py_round_whole _ n), Hn; done.
Qed.
End QueryMetrics.

(** ** Groups *)

Section QueryGroups.
Context {K : Type} `{GameKey K} {F : Type} `{Arith F}.
Implicit Types (df : list (Row.t K)) (row : Row.t K) (game_id : string).

(** X9.  Whenever both endpoints answer for a game, they agree on the
    whole-number stats too: for a row whose points and plus-minus are whole
    numbers, position i of the chart's points and momentum is the number
    "list players" reports as points and plusMinus of its i-th entry. *)
Theorem charts_points_agree_with_players df game_id
    (players : list (PlayerStats.t Q)) (chart : ChartData.t Q) i row :
  game_players df game_id = Ok players ->
  game_charts df game_id = Ok chart ->
  rows_of_game df game_id !! i = Some row ->
  whole (Row.points row) -> whole (Row.plusMinusPoints row) ->
  exists points momentum p v m,
    ChartData.datasets chart !! "points"%string = Some points
    /\ ChartData.datasets chart !! "momentum"%string = Some momentum
    /\ players !! i = Some p /\ points !! i = Some v /\ momentum !! i = Some m
    /\ v == inject_Z (PlayerStats.points p)
    /\ m == inject_Z (PlayerStats.plusMinus p).
Proof.
  intros (_ & _ & ->)%game_players_inv (_ & _ & ->)%game_charts_inv Hi
    [n Hn] [k Hk].
  eexists _, _, (player_entry row), _, _.
  do 2 (split; [reflexivity|]).
  rewrite !list_lookup_fmap, Hi. do 3 (split; [reflexivity|]).
  simpl. unfold py_float. simpl.
  by rewrite (py_int_whole _ n Hn), (py_int_whole _ k Hk).
Qed.

Context `{!GameKeyLawful K}.

(** X10.  Whatever the number of distinct team names in a group, the
    display string of "list games" is made of the first name and the first
    name that differs from it; further teams are not shown. *)
Theorem list_games_first_two_teams df games g a b pre post :
  list_games df = Ok games -> g ∈ games ->
  Row.teamName <$> rows_of_game df (GameInfo.gameId g) = a :: pre ++ b :: post ->
  (forall n, n ∈ pre -> n = a) -> a <> b ->
  GameInfo.teams g = [a +:+ " vs. " +:+ b].
Proof.
  rewrite list_games_ok. intros [= <-] (k & -> & Hk)%list_elem_of_fmap.
  simpl. rewrite group_rows_of_game. intros -> Hpre Hab.
  rewrite drop_duplicates_cons, drop_duplicates_from_app_seen.
  - simpl. rewrite decide_False; [done|].
    rewrite elem_of_cons, elem_of_nil. intros [E|[]]. congruence.
  - intros n Hn. rewrite (Hpre n Hn). apply list_elem_of_here.
Qed.

End QueryGroups.

(** X12.  Game ids are compared as text: with an integer gameId column, a
    query that starts with the digit 0 and goes on is Not-Found on both
    per-game endpoints, whatever the dataset, even when it denotes the
    number of a game that is there. *)
Theorem int64_leading_zero_not_found {F : Type} `{Arith F}
    (df : list (Row.t Z)) (s : string) :
  s <> ""%string ->
  game_players (F:=F) df (String "0"%char s) = Raise game_not_found
  /\ game_charts (F:=F) df (String "0"%char s) = Raise game_not_found.
Proof.
  intros Hs.
  assert (E : rows_of_game df (String "0"%char s) = []).
  { apply rows_of_game_nil. intros row _ Hk.
    apply str_of_int_leading_zero in Hk as [_ Hk]. done. }
  split; [by apply game_players_missing|by apply game_charts_missing].
Qed.

(** ** From the file to the responses *)

Section EndToEnd.
Context {K : Type} `{GameKey K}.
Implicit Types (csv : list (Raw.t K)) (df : list (Row.t K)).

Lemma load_data_rows csv df :
  _load_data csv = Ok df ->
  (forall raw, raw ∈ csv -> exists row, row ∈ df /\ load_row raw = Ok row)
  /\ (forall row, row ∈ df -> exists raw, raw ∈ csv /\ load_row raw = Ok row).
Proof.
  intros Hload%for_rows_Forall2. split.
  - intros raw (i & Hi)%list_elem_of_lookup_1.
    destruct (Forall2_lookup_l _ _ _ _ _ Hload Hi) as (row & Hrow & Hr).
    exists row. split; [by eapply list_elem_of_lookup_2|done].
  - intros row (i & Hi)%list_elem_of_lookup_1.
    destruct (Forall2_lookup_r _ _ _ _ _ Hload Hi) as (raw & Hraw & Hr).
    exists raw. split; [by eapply list_elem_of_lookup_2|done].
Qed.

(** X13.  After a successful load, "list games" lists exactly the game ids
    (in string form) of the lines of the file. *)
Theorem load_then_list_games csv df games game_id :
  _load_data csv = Ok df -> list_games df = Ok games ->
  (game_id ∈ GameInfo.gameId <$> games <->
   exists raw, raw ∈ csv /\ key_str (Raw.gameId raw) = game_id).
Proof.
  intros [Hto Hfrom]%load_data_rows. rewrite list_games_ok. intros [= <-].
  rewrite <- list_fmap_compose. change (GameInfo.gameId ∘ _) with (key_str (K:=K)).
  rewrite list_elem_of_fmap. split.
  - intros (k & -> & (row & Hrow & <-)%elem_of_game_keys).
    destruct (Hfrom row Hrow) as (raw & Hraw & Hr).
    exists raw. split; [done|].
    by apply load_row_text in Hr as (-> & _).
  - intros (raw & Hraw & <-).
    destruct (Hto raw Hraw) as (row & Hrow & Hr).
    exists (Row.gameId row). split.
    + by apply load_row_text in Hr as (-> & _).
    + apply elem_of_game_keys. by exists row.
Qed.

End EndToEnd.

(** ** The further properties at work on the sample data *)

Lemma load_data_keeps_whole_ids_witness :
  exists df row,
    _load_data csv_malformed_stats = Ok df
    /\ df !! 0%nat = Some row
    /\ Row.teamId row = 1610612738%Z /\ Row.personId row = 1628369%Z.
Proof.
  assert (E : exists df, _load_data csv_malformed_stats = Ok df)
    by (eexists; reflexivity).
  destruct E as [df E].
  destruct (load_data_keeps_whole_ids csv_malformed_stats df 0%nat _
              1610612738 1628369 E eq_refl eq_refl eq_refl)
    as (row & Hrow & Ht & Hp).
  - unfold int64_min, int64_max. lia.
  - unfold int64_min, int64_max. lia.
  - by exists df, row.
Defined.

Lemma sample_games_listed :
  list_games sample_df =
  Ok [ GameInfo.mk "42300101" "2024-04-21" ["Celtics vs. Heat"%string];
       GameInfo.mk "42300102" "2024-04-21" ["Knicks"%string] ].
Proof. reflexivity. Defined.

Lemma listed_iff_found_witness :
  game_players (F:=spec_float) sample_df "42300102" <> Raise game_not_found
  /\ game_charts (F:=spec_float) sample_df "42300102" <> Raise game_not_found.
Proof.
  pose proof (listed_iff_found (F:=spec_float) sample_df _ "42300102"
                sample_games_listed) as [Hplayers Hcharts].
  split; [apply Hplayers|apply Hcharts];
    apply list_elem_of_further, list_elem_of_here.
Defined.

Lemma sample_players_listed :
  game_players (F:=Q) sample_df "42300101"
  = Ok (player_entry <$> rows_of_game sample_df "42300101").
Proof. reflexivity. Defined.

Lemma sample_chart_listed :
  game_charts (F:=Q) sample_df "42300101"
  = Ok (chart_of (rows_of_game sample_df "42300101")).
Proof. reflexivity. Defined.

Lemma game_players_entry_fields_witness :
  exists (players : list (PlayerStats.t Q)) p,
    game_players sample_df "42300101" = Ok players
    /\ players !! 0%nat = Some p
    /\ PlayerStats.personName p = "A"%string
    /\ inject_Z (PlayerStats.points p) == 30.
Proof.
  exists (player_entry <$> rows_of_game sample_df "42300101"),
         (player_entry row_thirty_points).
  destruct (game_players_entry_fields sample_df "42300101" _ 0%nat
              (player_entry row_thirty_points) sample_players_listed eq_refl)
    as (row & Hrow & _ & _ & _ & _ & _ & Hname & _ & _ & Hpts & _).
  change (Some row_thirty_points = Some row) in Hrow. injection Hrow as <-.
  split; [exact sample_players_listed|]. split; [reflexivity|].
  split; [reflexivity|].
  apply Hpts. by exists 30%Z.
Defined.

Lemma list_games_sorted_witness :
  exists keys : list Z,
    StronglySorted Z.le keys
    /\ ["42300101"%string; "42300102"%string] = str_of_int <$> keys.
Proof.
  apply (@list_games_sorted Z int64_key sample_df _
           (Z.le_total : Total (@key_le Z int64_key))
           (Z.le_trans : Transitive (@key_le Z int64_key))
           sample_games_listed).
Defined.

Lemma game_players_metrics_exact_witness :
  exists (players : list (PlayerStats.t Q)) p,
    game_players sample_df "42300101" = Ok players
    /\ players !! 2%nat = Some p
    /\ 0 <= PlayerStats.true_shooting p
    /\ PlayerStats.efficiency p == 24.
Proof.
  exists (player_entry <$> rows_of_game sample_df "42300101"),
         (player_entry row_rating_24).
  destruct (game_players_metrics_exact sample_df "42300101" _ 2%nat
              (player_entry row_rating_24) sample_players_listed eq_refl)
    as (row & Hrow & Hts & _ & Heff).
  change (Some row_rating_24 = Some row) in Hrow. injection Hrow as <-.
  split; [exact sample_players_listed|]. split; [reflexivity|]. split.
  - apply Hts. vm_compute. discriminate.
  - rewrite Heff; [reflexivity|].
    unfold efficiency_inputs, row_rating_24, box. simpl.
    repeat constructor;
      match goal with |- whole (?n # 1) => by exists n end.
Defined.

Lemma charts_points_agree_with_players_witness :
  exists (players : list (PlayerStats.t Q)) (chart : ChartData.t Q) points p v,
    game_players sample_df "42300101" = Ok players
    /\ game_charts sample_df "42300101" = Ok chart
    /\ ChartData.datasets chart !! "points"%string = Some points
    /\ players !! 0%nat = Some p /\ points !! 0%nat = Some v
    /\ v == inject_Z (PlayerStats.points p).
Proof.
  destruct (@charts_points_agree_with_players Z int64_key sample_df
              "42300101" _ _ 0%nat row_thirty_points
              sample_players_listed sample_chart_listed eq_refl)
    as (points & momentum & p & v & m
        & Hpts & _ & Hp & Hv & _ & Hagree & _).
  - by exists 30%Z.
  - by exists 0%Z.
  - eexists _, _, points, p, v.
    split; [exact sample_players_listed|].
    split; [exact sample_chart_listed|]. done.
Defined.

Lemma sample_three_teams_listed :
  list_games sample_three_teams =
  Ok [ GameInfo.mk "42300103" "2024-04-21" ["Celtics vs. Heat"%string] ].
Proof. reflexivity. Defined.

Lemma list_games_first_two_teams_witness :
  exists games g,
    list_games sample_three_teams = Ok games
    /\ g ∈ games
    /\ GameInfo.teams g = ["Celtics vs. Heat"%string].
Proof.
  eexists _, _. split; [exact sample_three_teams_listed|].
  split; [apply list_elem_of_here|].
  apply (list_games_first_two_teams sample_three_teams _ _
           "Celtics"%string "Heat"%string ["Celtics"%string] ["Knicks"%string]
           sample_three_teams_listed (list_elem_of_here _ _)).
  - reflexivity.
  - intros n Hn. apply elem_of_cons in Hn as [->|Hn]; [done|].
    by apply elem_of_nil in Hn.
  - discriminate.
Defined.



Lemma int64_leading_zero_not_found_witness :
  game_players (F:=spec_float) sample_df "042300101" = Raise game_not_found
  /\ game_charts (F:=spec_float) sample_df "042300101" = Raise game_not_found.
Proof.
  apply (int64_leading_zero_not_found sample_df "42300101"). discriminate.
Defined.

Lemma load_then_list_games_witness :
  exists df games,
    _load_data csv_malformed_stats = Ok df
    /\ list_games df = Ok games
    /\ "42300101"%string ∈ GameInfo.gameId <$> games.
Proof.
  assert (E : exists df, _load_data csv_malformed_stats = Ok df)
    by (eexists; reflexivity).
  destruct E as [df E]. eexists df, _.
  split; [done|]. split; [apply list_games_ok|].
  apply (load_then_list_games csv_malformed_stats df _ "42300101" E
           (list_games_ok df)).
  eexists. split; [apply list_elem_of_here|reflexivity].
Defined.
